(** * reasoning_gym: procedural task generators

    A shallow embedding of the generators of [reasoning_gym]
    ([factory.py], [algorithmic/letter_counting.py],
    [cognition/color_cube_rotation.py], [games/countdown.py]) and the
    properties of its specification that concern them.

    Python objects are records, dictionaries are [gmap]s, exceptions are
    the [Raise] branch of [result], and the pseudo-random generator
    [random.Random] is an interface ([PyRuntime]) through which every
    draw of the source is threaded explicitly. *)

From Stdlib Require Import ZArith QArith List String Ascii Bool Lia DecimalString.
From stdpp Require Import base option gmap strings list fin_maps.

Open Scope string_scope.
Open Scope Z_scope.

(** ** Exceptions and results *)

Inductive exn :=
| AssertionError (msg : string)
| ValueError (msg : string)
| KeyError
| IndexError
| AttributeError
| StopIteration
| ZeroDivisionError
| RecursionError.

Inductive result (A : Type) :=
| Ok (a : A)
| Raise (e : exn).
Arguments Ok {A} a.
Arguments Raise {A} e.

Definition is_ok {A} (r : result A) : bool :=
  match r with Ok _ => true | Raise _ => false end.

(** [assert cond, msg] *)
Definition py_assert (cond : bool) (msg : string) : result unit :=
  if cond then Ok tt else Raise (AssertionError msg).

Definition and_then {A B} (r : result A) (k : A -> result B) : result B :=
  match r with Ok a => k a | Raise e => Raise e end.

(** ** color_cube_rotation.py: the cube *)

Module ColorCube.

Inductive Color := RED | GREEN | BLUE | YELLOW | WHITE | ORANGE.

Inductive Side := TOP | RIGHT | FRONT | LEFT | BACK | BOTTOM.

#[global] Instance Color_eq_dec : EqDecision Color.
Proof. solve_decision. Defined.

#[global] Instance Side_eq_dec : EqDecision Side.
Proof. solve_decision. Defined.

Definition Side_code (s : Side) : nat :=
  match s with
  | TOP => 0 | RIGHT => 1 | FRONT => 2 | LEFT => 3 | BACK => 4 | BOTTOM => 5
  end%nat.

Definition Side_of_code (n : nat) : Side :=
  match n with
  | 0 => TOP | 1 => RIGHT | 2 => FRONT | 3 => LEFT | 4 => BACK | _ => BOTTOM
  end%nat.

#[global] Instance Side_countable : Countable Side.
Proof. apply (inj_countable' Side_code Side_of_code). by intros []. Defined.

(** [list(Side)]: the members in definition order. *)
Definition all_sides : list Side := [TOP; RIGHT; FRONT; LEFT; BACK; BOTTOM].

(** [class Cube]: [colors: Dict[Side, Color]]. *)
Record Cube := mkCube { colors : gmap Side Color }.

(** One statement [self.colors[dst] = old[src]] of a rotation, run on
    the outcome of the statements before it: [old[src]] raises
    [KeyError] when [src] is not a key, and the assignments already made
    stay in [self.colors]. *)
Definition assign_from (old : gmap Side Color) (dst src : Side)
    (st : result unit * Cube) : result unit * Cube :=
  match st with
  | (Raise e, self) => (Raise e, self)
  | (Ok _, self) =>
      match old !! src with
      | None => (Raise KeyError, self)
      | Some c => (Ok tt, mkCube (<[dst := c]> (colors self)))
      end
  end.

Definition rotate_front_to_top (self : Cube) : result unit * Cube :=
  let old := colors self in
  assign_from old BACK TOP
    (assign_from old BOTTOM BACK
      (assign_from old FRONT BOTTOM
        (assign_from old TOP FRONT (Ok tt, self)))).

Definition rotate_right_to_top (self : Cube) : result unit * Cube :=
  let old := colors self in
  assign_from old LEFT TOP
    (assign_from old BOTTOM LEFT
      (assign_from old RIGHT BOTTOM
        (assign_from old TOP RIGHT (Ok tt, self)))).

Definition rotate_back_to_top (self : Cube) : result unit * Cube :=
  let old := colors self in
  assign_from old FRONT TOP
    (assign_from old BOTTOM FRONT
      (assign_from old BACK BOTTOM
        (assign_from old TOP BACK (Ok tt, self)))).

Definition rotate_left_to_top (self : Cube) : result unit * Cube :=
  let old := colors self in
  assign_from old RIGHT TOP
    (assign_from old BOTTOM RIGHT
      (assign_from old LEFT BOTTOM
        (assign_from old TOP LEFT (Ok tt, self)))).

Definition rotate_bottom_to_top (self : Cube) : result unit * Cube :=
  let old := colors self in
  assign_from old BACK FRONT
    (assign_from old FRONT BACK
      (assign_from old BOTTOM TOP
        (assign_from old TOP BOTTOM (Ok tt, self)))).

(** [_rotate_to_top]: [TOP] is not a key of [rotation_map], so nothing
    is done for it. *)
Definition _rotate_to_top (cube : Cube) (from_side : Side) : result unit * Cube :=
  match from_side with
  | FRONT => rotate_front_to_top cube
  | RIGHT => rotate_right_to_top cube
  | BACK => rotate_back_to_top cube
  | LEFT => rotate_left_to_top cube
  | BOTTOM => rotate_bottom_to_top cube
  | TOP => (Ok tt, cube)
  end.

(** [ColorCubeRotationConfig] *)
Record ColorCubeRotationConfig := mkConfig {
  min_rotations : Z;
  max_rotations : Z;
  seed : option Z;
  size : Z
}.

Definition validate (self : ColorCubeRotationConfig) : result unit :=
  and_then (py_assert (0 <? min_rotations self) "min_rotations must be positive")
    (fun _ => py_assert (min_rotations self <=? max_rotations self)
                "max_rotations must be >= min_rotations").

(** [ColorCubeRotationDataset.__init__]: the configuration is stored and
    validated, then the constructor of the base class runs.  The base
    class is defined outside these files; its constructor is the
    argument [base_init], applied to [seed] and [size]. *)
Definition __init__ {Obj} (base_init : option Z -> Z -> result Obj)
    (config : ColorCubeRotationConfig) : result (ColorCubeRotationConfig * Obj) :=
  and_then (validate config)
    (fun _ => and_then (base_init (seed config) (size config))
                (fun o => Ok (config, o))).

End ColorCube.

(** ** The Python runtime the generators draw from

    [random.Random] is part of the interpreter, not of these files.  A
    generator state is created by [Random(seed)], and every method the
    generators call ([randint], [choice], [shuffle]) is defined in the
    interpreter from the single primitive [_randbelow(n)], which returns
    a number below [n] and advances the state.  The order in which a
    [set] of characters is listed by [list(...)] is fixed by the
    interpreter's string hashing; it is the function [list_of_set]. *)

Class PyRuntime := {
  rng : Type;
  Random : Z -> rng;
  _randbelow : Z -> rng -> Z * rng;
  list_of_set : list ascii -> list ascii
}.

Class PyRuntimeLaws (R : PyRuntime) : Prop := {
  _randbelow_range : forall n g, 0 < n -> 0 <= fst (_randbelow n g) < n;
  list_of_set_NoDup : forall s, NoDup (list_of_set s);
  list_of_set_elem : forall s c, c ∈ list_of_set s <-> c ∈ s
}.

Section Rand.
Context {R : PyRuntime}.

(** Computations that draw from a generator and may raise. *)
Definition M (A : Type) : Type := rng -> result (A * rng).

Definition ret {A} (a : A) : M A := fun g => Ok (a, g).

Definition bind {A B} (c : M A) (k : A -> M B) : M B :=
  fun g => match c g with
           | Ok (a, g') => k a g'
           | Raise e => Raise e
           end.

Definition raise {A} (e : exn) : M A := fun _ => Raise e.

Definition lift {A} (r : result A) : M A :=
  fun g => match r with Ok a => Ok (a, g) | Raise e => Raise e end.

End Rand.

Notation "'let*' x ':=' c 'in' k" := (bind c (fun x => k))
  (at level 10, x name, c at level 100, k at level 200).
Notation "'let*' ' p ':=' c 'in' k" := (bind c (fun '(p) => k))
  (at level 10, p pattern, c at level 100, k at level 200).

(** The methods of a [random.Random] object [rng]. *)
Module Rng.
Section Methods.
Context {R : PyRuntime}.

(** [rng.randint(a, b)] is [randrange(a, b + 1)]. *)
Definition randint (a b : Z) : M Z :=
  fun g =>
    let width := b + 1 - a in
    if 0 <? width
    then let (k, g') := _randbelow width g in Ok (a + k, g')
    else Raise (ValueError "empty range for randrange()").

(** [rng.choice(seq)] is [seq[_randbelow(len(seq))]]. *)
Definition choice {A} (seq : list A) : M A :=
  fun g =>
    match seq with
    | [] => Raise IndexError
    | _ =>
        let (k, g') := _randbelow (Z.of_nat (length seq)) g in
        match seq !! Z.to_nat k with
        | Some x => Ok (x, g')
        | None => Raise IndexError
        end
    end.

(** [x[i], x[j] = x[j], x[i]] *)
Definition swap {A} (i j : nat) (x : list A) : list A :=
  match x !! i, x !! j with
  | Some xi, Some xj => <[j := xi]> (<[i := xj]> x)
  | _, _ => x
  end.

(** The body of [rng.shuffle(x)] for the indices [i], [i - 1], ..., [1]. *)
Fixpoint shuffle_from {A} (i : nat) (x : list A) : M (list A) :=
  match i with
  | O => ret x
  | S i' =>
      fun g =>
        let (j, g') := _randbelow (Z.of_nat i + 1) g in
        shuffle_from i' (swap i (Z.to_nat j) x) g'
  end.

(** [rng.shuffle(x)]: [for i in reversed(range(1, len(x)))]. *)
Definition shuffle {A} (x : list A) : M (list A) :=
  shuffle_from (length x - 1) x.

End Methods.
End Rng.

(** ** Strings *)

Definition dquote : string := String (ascii_of_nat 34) EmptyString.

(** [str(n)] for an integer. *)
Definition str_of_Z (n : Z) : string :=
  NilZero.string_of_int (Z.to_int n).

Definition is_upper (c : ascii) : bool :=
  let n := nat_of_ascii c in (65 <=? n)%nat && (n <=? 90)%nat.

Definition is_lower (c : ascii) : bool :=
  let n := nat_of_ascii c in (97 <=? n)%nat && (n <=? 122)%nat.

Definition is_digit (c : ascii) : bool :=
  let n := nat_of_ascii c in (48 <=? n)%nat && (n <=? 57)%nat.

(** A letter of the alphabet. *)
Definition is_letter (c : ascii) : bool := is_upper c || is_lower c.

Definition is_alnum (c : ascii) : bool := is_letter c || is_digit c.

(** What [\w] matches (over ASCII). *)
Definition is_word_char (c : ascii) : bool :=
  is_alnum c || (nat_of_ascii c =? 95)%nat.

Definition lower_char (c : ascii) : ascii :=
  if is_upper c then ascii_of_nat (nat_of_ascii c + 32) else c.

(** [s.lower()] *)
Fixpoint lower (s : string) : string :=
  match s with
  | EmptyString => EmptyString
  | String c s' => String (lower_char c) (lower s')
  end.

(** [s.count(c)] for a one-character string [c]. *)
Fixpoint count_char (c : ascii) (s : string) : Z :=
  match s with
  | EmptyString => 0
  | String c' s' => (if Ascii.eqb c' c then 1 else 0) + count_char c s'
  end.

(** [sep.join(l)] *)
Fixpoint join (sep : string) (l : list string) : string :=
  match l with
  | [] => EmptyString
  | [x] => x
  | x :: l' => x +:+ sep +:+ join sep l'
  end.

(** [s.isalnum()]: non-empty and every character alphanumeric. *)
Definition isalnum (s : string) : bool :=
  match s with
  | EmptyString => false
  | _ => forallb is_alnum (list_ascii_of_string s)
  end.

(** [re.findall(r'\b\w+\b', text)]: the maximal runs of word characters,
    in order.  [cur] is the run being read, reversed. *)
Fixpoint findall_words (text : list ascii) (cur : list ascii) : list string :=
  let flush := match cur with
               | [] => []
               | _ => [string_of_list_ascii (rev cur)]
               end in
  match text with
  | [] => flush
  | c :: text' =>
      if is_word_char c then findall_words text' (c :: cur)
      else flush ++ findall_words text' []
  end.

(** [seq[lo:hi]] with Python's treatment of negative and large bounds. *)
Definition slice_bound {A} (l : list A) (k : Z) : Z :=
  let n := Z.of_nat (length l) in
  if k <? 0 then Z.max 0 (k + n) else Z.min k n.

Definition py_slice {A} (l : list A) (lo hi : Z) : list A :=
  let lo' := slice_bound l lo in
  let hi' := slice_bound l hi in
  take (Z.to_nat (hi' - lo')) (drop (Z.to_nat lo') l).

(** ** factory.py: the registry of datasets *)

Module Factory.

(** A class object: its name, the names of the classes it derives from
    (itself included), and whether it is a dataclass. *)
Record PyClass := mkClass {
  cls_name : string;
  cls_mro : list string;
  cls_is_dataclass : bool
}.

(** An instance, as far as the factory looks at it: its class. *)
Record PyObject := mkObject { ob_type : PyClass }.

Definition ProceduralDataset : string := "ProceduralDataset".

Definition issubclass (c : PyClass) (base : string) : bool :=
  bool_decide (base ∈ cls_mro c).

Definition is_dataclass (c : PyClass) : bool := cls_is_dataclass c.

Definition isinstance (o : PyObject) (c : PyClass) : bool :=
  issubclass (ob_type o) (cls_name c).

(** The call [dataset_cls(config=config, seed=seed, size=size)] that
    [create_dataset] returns the value of. *)
Record Instantiation := mkInstantiation {
  inst_cls : PyClass;
  inst_config : PyObject;
  inst_seed : option Z;
  inst_size : Z
}.

(** [register_dataset]; the global [_DATASETS] is passed in and returned. *)
Definition register_dataset (name : string) (dataset_cls config_cls : PyClass)
    (_DATASETS : gmap string (PyClass * PyClass))
  : result unit * gmap string (PyClass * PyClass) :=
  match _DATASETS !! name with
  | Some _ =>
      (Raise (ValueError ("Dataset '" +:+ name +:+ "' is already registered")),
       _DATASETS)
  | None =>
      if negb (issubclass dataset_cls ProceduralDataset)
      then (Raise (ValueError "Dataset class must inherit from ProceduralDataset"),
            _DATASETS)
      else if negb (is_dataclass config_cls)
      then (Raise (ValueError "Config class must be a dataclass"), _DATASETS)
      else (Ok tt, <[name := (dataset_cls, config_cls)]> _DATASETS)
  end.

(** [create_dataset]; [seed] defaults to [None] and [size] to [500]. *)
Definition create_dataset (name : string) (config : PyObject)
    (seed : option Z) (size : Z)
    (_DATASETS : gmap string (PyClass * PyClass)) : result Instantiation :=
  match _DATASETS !! name with
  | None => Raise (ValueError ("Dataset '" +:+ name +:+ "' not found"))
  | Some (dataset_cls, config_cls) =>
      if negb (isinstance config config_cls)
      then Raise (ValueError ("Config must be instance of " +:+ cls_name config_cls))
      else Ok (mkInstantiation dataset_cls config seed size)
  end.

End Factory.

(** ** letter_counting.py *)

Module LetterCounting.

Record LetterCountingConfig := mkConfig {
  min_words : Z;
  max_words : Z;
  seed : option Z;
  size : Z
}.

Definition validate (self : LetterCountingConfig) : result unit :=
  and_then (py_assert (0 <? min_words self) "min_words must be positive")
    (fun _ => py_assert (min_words self <=? max_words self)
                "max_words must be >= min_words").

(** The attributes of a [LetterCountingDataset].  [_current_idx] exists
    only once [__iter__] has been called. *)
Record LetterCountingDataset := mkDataset {
  config : LetterCountingConfig;
  ds_seed : Z;
  words : list string;
  _current_idx : option Z
}.

Record Metadata := mkMetadata {
  span_length : Z;
  target_letter : ascii;
  span : list string
}.

Record Sample := mkSample {
  question : string;
  answer : string;
  metadata : Metadata
}.

(** [__init__].  [text] is what [read_data_file] returns for the corpus
    and [fresh_seed] the value of [Random().randint(0, 2**32)], drawn
    from the system's entropy when the configuration has no seed. *)
Definition __init__ (text : string) (fresh_seed : Z)
    (config : LetterCountingConfig) : result LetterCountingDataset :=
  and_then (validate config) (fun _ =>
    Ok {| config := config;
          ds_seed := match seed config with Some s => s | None => fresh_seed end;
          words := filter (fun w => Is_true (isalnum w))
                     (findall_words (list_ascii_of_string text) []);
          _current_idx := None |}).

Definition __len__ (self : LetterCountingDataset) : Z := size (config self).

Section Methods.
Context {R : PyRuntime}.

(** The body of [__getitem__] after [rng = Random(self.seed + idx)]. *)
Definition generate (self : LetterCountingDataset) : M Sample :=
  let* span_length := Rng.randint (min_words (config self)) (max_words (config self)) in
  let* start_idx := Rng.randint 0 (Z.of_nat (length (words self)) - span_length) in
  let span := py_slice (words self) start_idx (start_idx + span_length) in
  let letters := list_of_set (list_ascii_of_string (lower (join EmptyString span))) in
  let letters := match letters with [] => ["a"%char] | _ => letters end in
  let* target_letter := Rng.choice letters in
  let count := foldr Z.add 0 (map (fun word => count_char target_letter (lower word)) span) in
  ret {| question := "How many times does the letter " +:+ dquote
                       +:+ String target_letter EmptyString +:+ dquote
                       +:+ " appear in the text: " +:+ dquote
                       +:+ join " " span +:+ dquote +:+ "?";
         answer := str_of_Z count;
         metadata := {| span_length := span_length;
                        target_letter := target_letter;
                        span := span |} |}.

(** [self[idx]]: the sample, and the object afterwards (no attribute is
    assigned). *)
Definition __getitem__ (self : LetterCountingDataset) (idx : Z)
  : result Sample * LetterCountingDataset :=
  (match generate self (Random (ds_seed self + idx)) with
   | Ok (s, _) => Ok s
   | Raise e => Raise e
   end, self).

(** [self._current_idx = v] *)
Definition set_current_idx (self : LetterCountingDataset) (v : Z)
  : LetterCountingDataset :=
  {| config := config self; ds_seed := ds_seed self; words := words self;
     _current_idx := Some v |}.

(** [__iter__]: sets the cursor attribute and returns [self]; the
    iterator is the dataset object itself. *)
Definition __iter__ (self : LetterCountingDataset) : LetterCountingDataset :=
  set_current_idx self 0.

Definition __next__ (self : LetterCountingDataset)
  : result Sample * LetterCountingDataset :=
  match _current_idx self with
  | None => (Raise AttributeError, self)
  | Some cur =>
      if size (config self) <=? cur then (Raise StopIteration, self)
      else
        match __getitem__ self cur with
        | (Ok item, self') =>
            match _current_idx self' with
            | None => (Raise AttributeError, self')
            | Some cur' => (Ok item, set_current_idx self' (cur' + 1))
            end
        | (Raise e, self') => (Raise e, self')
        end
  end.

End Methods.

(** *** Objects and references

    [iter(d)] evaluates [d.__iter__()], whose value is a reference to an
    object.  The store maps references to dataset objects; [iter] and
    [next] act on the object a reference points to. *)

Section Store.
Context {R : PyRuntime}.

Definition iter (d : nat) (h : gmap nat LetterCountingDataset)
  : result nat * gmap nat LetterCountingDataset :=
  match h !! d with
  | None => (Raise AttributeError, h)
  | Some self => (Ok d, <[d := __iter__ self]> h)
  end.

Definition next (it : nat) (h : gmap nat LetterCountingDataset)
  : result Sample * gmap nat LetterCountingDataset :=
  match h !! it with
  | None => (Raise AttributeError, h)
  | Some self => let (r, self') := __next__ self in (r, <[it := self']> h)
  end.

(** [next(it)] for the value [it] of an earlier [iter(d)]. *)
Definition next_of (it : result nat) (h : gmap nat LetterCountingDataset)
  : result Sample * gmap nat LetterCountingDataset :=
  match it with
  | Ok l => next l h
  | Raise e => (Raise e, h)
  end.

Definition getitem (d : nat) (idx : Z) (h : gmap nat LetterCountingDataset)
  : result Sample * gmap nat LetterCountingDataset :=
  match h !! d with
  | None => (Raise AttributeError, h)
  | Some self => let (r, self') := __getitem__ self idx in (r, <[d := self']> h)
  end.

End Store.

End LetterCounting.

(** ** countdown.py *)

Module Countdown.

Record CountdownConfig := mkConfig {
  min_numbers : Z;
  max_numbers : Z;
  min_value : Z;
  max_value : Z;
  min_target : Z;
  max_target : Z;
  operators : list string;
  shuffle : bool;
  seed : option Z;
  size : Z
}.

Definition allowed_operators : list string := ["+"; "-"; "*"; "/"].

Definition validate (self : CountdownConfig) : result unit :=
  and_then (py_assert (1 <? min_numbers self) "min_numbers must be greater than 1") (fun _ =>
  and_then (py_assert (min_numbers self <=? max_numbers self) "max_numbers must be >= min_numbers") (fun _ =>
  and_then (py_assert (0 <? min_value self) "min_value must be positive") (fun _ =>
  and_then (py_assert (min_value self <=? max_value self) "max_value must be >= min_value") (fun _ =>
  and_then (py_assert (0 <? min_target self) "min_target must be positive") (fun _ =>
  and_then (py_assert (min_target self <=? max_target self) "max_target must be >= min_target") (fun _ =>
  and_then (py_assert (0 <? Z.of_nat (length (operators self))) "must specify at least one operator") (fun _ =>
  py_assert (forallb (fun op => bool_decide (op ∈ allowed_operators)) (operators self))
    "invalid operator specified"))))))).

(** *** Expressions

    The expressions the generator builds with sympy: symbols [x0],
    [x1], ... combined by the four operators. *)
Inductive Expr :=
| Sym (i : nat)
| Add (a b : Expr)
| Sub (a b : Expr)
| Mul (a b : Expr)
| Div (a b : Expr).

(** [expr.subs(subs)] for [subs = {syms[i]: numbers[i]}], as an exact
    rational; [None] when a symbol has no number or a divisor is zero. *)
Fixpoint subs (numbers : list Z) (e : Expr) : option Q :=
  match e with
  | Sym i => (fun n => inject_Z n) <$> numbers !! i
  | Add a b =>
      match subs numbers a, subs numbers b with
      | Some x, Some y => Some (Qred (x + y)%Q) | _, _ => None
      end
  | Sub a b =>
      match subs numbers a, subs numbers b with
      | Some x, Some y => Some (Qred (x - y)%Q) | _, _ => None
      end
  | Mul a b =>
      match subs numbers a, subs numbers b with
      | Some x, Some y => Some (Qred (x * y)%Q) | _, _ => None
      end
  | Div a b =>
      match subs numbers a, subs numbers b with
      | Some x, Some y =>
          if Qeq_bool y 0 then None else Some (Qred (x / y)%Q)
      | _, _ => None
      end
  end.

(** [int(q)] for a rational: the fraction is truncated towards zero. *)
Definition int_of_Q (q : Q) : Z := Z.quot (Qnum q) (Z.pos (Qden q)).

(** [str(sym)] *)
Definition str_sym (i : nat) : string := "x" +:+ str_of_Z (Z.of_nat i).

Definition prec (e : Expr) : nat :=
  match e with
  | Sym _ => 3
  | Mul _ _ | Div _ _ => 2
  | Add _ _ | Sub _ _ => 1
  end%nat.

Definition parens_below (p : nat) (e : Expr) (s : string) : string :=
  if (prec e <? p)%nat then "(" +:+ s +:+ ")" else s.

(** [str(expr)]: infix, operands in the order the expression was built,
    a sum or difference in parentheses where it is an operand of [*] or
    [/].  (sympy is free to list the operands of a sum or product in
    another order; the value of the text is the same.) *)
Fixpoint str_expr (e : Expr) : string :=
  match e with
  | Sym i => str_sym i
  | Add a b => str_expr a +:+ " + " +:+ parens_below 2 b (str_expr b)
  | Sub a b => str_expr a +:+ " - " +:+ parens_below 2 b (str_expr b)
  | Mul a b => parens_below 2 a (str_expr a) +:+ "*" +:+ parens_below 3 b (str_expr b)
  | Div a b => parens_below 2 a (str_expr a) +:+ "/" +:+ parens_below 3 b (str_expr b)
  end.

(** [s.replace(old, new)]: occurrences of [old] are replaced from left
    to right.  [skip] counts the characters of a matched occurrence that
    are still to be passed over. *)
Fixpoint replace_from (old new : string) (skip : nat) (s : string) : string :=
  match s with
  | EmptyString => EmptyString
  | String c s' =>
      match skip with
      | S k => replace_from old new k s'
      | O =>
          if String.prefix old s
          then new +:+ replace_from old new (String.length old - 1) s'
          else String c (replace_from old new O s')
      end
  end.

Definition replace (old new s : string) : string :=
  match old with
  | EmptyString => s
  | _ => replace_from old new O s
  end.

(** [for i, sym in enumerate(syms): expr_str = expr_str.replace(str(sym),
    str(numbers[i]))], from index [i] on. *)
Fixpoint replace_syms (i : nat) (numbers : list Z) (expr_str : string) : string :=
  match numbers with
  | [] => expr_str
  | n :: numbers' =>
      replace_syms (S i) numbers' (replace (str_sym i) (str_of_Z n) expr_str)
  end.

(** *** The generator *)

(** Which arm of the loop body of [_generate_expression] was run.  The
    arms are recorded next to the loop state; the code itself keeps no
    such record. *)
Inductive arm :=
| ArmAdd | ArmSub | ArmMul | ArmDiv
| ArmFallbackSub    (* [remaining] empty: "Fallback to subtraction" *)
| ArmFallbackAdd.   (* [numbers[i] == 0]: "Fallback to addition" *)

Record LoopState := mkLoop {
  expr : Expr;
  numbers : list Z;
  used_nums : list Z;
  arms : list arm
}.

Record CountdownDataset := mkDataset {
  config : CountdownConfig;
  ds_seed : Z;
  _prompt_templates : list (string -> string -> string)
}.

Definition newline : string := String (ascii_of_nat 10) EmptyString.

(** The three templates, as functions of [numbers] and [target]
    ([template.format(numbers=..., target=...)]). *)
Definition prompt_templates : list (string -> string -> string) :=
  [ (fun numbers target =>
       "Using the numbers " +:+ numbers +:+ ", create an expression that equals "
       +:+ target +:+ "." +:+ newline +:+ "You can only use each number once.");
    (fun numbers target =>
       "Find a way to make " +:+ target +:+ " using some or all of these numbers: "
       +:+ numbers +:+ "." +:+ newline +:+ "Each number can only be used once.");
    (fun numbers target =>
       "Calculate " +:+ target +:+ " using the numbers " +:+ numbers +:+ "."
       +:+ newline +:+ "Each number may be used at most once.") ].

Record Metadata := mkMetadata {
  md_numbers : list Z;
  md_target : Z;
  md_expression : string
}.

Record Sample := mkSample {
  question : string;
  answer : string;
  metadata : Metadata
}.

Section Methods.
Context {R : PyRuntime}.

(** [[rng.randint(lo, hi) for _ in range(n)]] *)
Fixpoint draw_numbers (n : nat) (lo hi : Z) : M (list Z) :=
  match n with
  | O => ret []
  | S n' =>
      let* x := Rng.randint lo hi in
      let* xs := draw_numbers n' lo hi in
      ret (x :: xs)
  end.

(** The body of [for i in range(1, num_terms)]. *)
Definition step (self : CountdownDataset) (i : nat) (st : LoopState) : M LoopState :=
  let* op := Rng.choice (operators (config self)) in
  let* '(e, nums, a) :=
    if String.eqb op "+" then ret (Add (expr st) (Sym i), numbers st, ArmAdd)
    else if String.eqb op "-" then ret (Sub (expr st) (Sym i), numbers st, ArmSub)
    else if String.eqb op "*" then ret (Mul (expr st) (Sym i), numbers st, ArmMul)
    else
      match numbers st !! i with
      | None => raise IndexError
      | Some ni =>
          if negb (ni =? 0) then
            let remaining := filter (fun n => n <> 0) (drop i (numbers st)) in
            match remaining with
            | [] => ret (Sub (expr st) (Sym i), numbers st, ArmFallbackSub)
            | _ =>
                let* div := Rng.choice remaining in
                ret (Div (expr st) (Sym i), <[i := div]> (numbers st), ArmDiv)
            end
          else ret (Add (expr st) (Sym i), numbers st, ArmFallbackAdd)
      end in
  match nums !! i with
  | None => raise IndexError
  | Some ni =>
      ret {| expr := e; numbers := nums;
             used_nums := used_nums st ++ [ni]; arms := arms st ++ [a] |}
  end.

Fixpoint loop (self : CountdownDataset) (indices : list nat) (st : LoopState)
  : M LoopState :=
  match indices with
  | [] => ret st
  | i :: indices' => let* st' := step self i st in loop self indices' st'
  end.

(** [_generate_expression] up to the end of the loop.  [syms[0]] and
    [numbers[0]] raise [IndexError] when no number was drawn. *)
Definition build (self : CountdownDataset) : M LoopState :=
  let cfg := config self in
  let* num_terms := Rng.randint (min_numbers cfg) (max_numbers cfg) in
  let* numbers := draw_numbers (Z.to_nat num_terms) (min_value cfg) (max_value cfg) in
  match numbers with
  | [] => raise IndexError
  | n0 :: _ =>
      loop self (seq 1 (Z.to_nat num_terms - 1))
        {| expr := Sym 0; numbers := numbers; used_nums := [n0]; arms := [] |}
  end.

(** The [try] block: the target, the text, and the test on the bounds.
    [None] stands for both ways of trying again: a target out of bounds,
    and an evaluation that raised. *)
Definition finish (self : CountdownDataset) (st : LoopState)
  : option (string * list Z * Z) :=
  match subs (numbers st) (expr st) with
  | None => None
  | Some q =>
      let target := int_of_Q q in
      let expr_str := replace_syms 0 (numbers st) (str_expr (expr st)) in
      if (min_target (config self) <=? target) && (target <=? max_target (config self))
      then Some (expr_str, numbers st, target)
      else None
  end.

(** One pass through the body of [_generate_expression], without the
    recursive call. *)
Definition attempt (self : CountdownDataset) : M (option (string * list Z * Z)) :=
  let* st := build self in ret (finish self st).

(** [_generate_expression].  [depth] is the number of nested calls the
    interpreter still allows; the call that would exceed it raises
    [RecursionError]. *)
Fixpoint _generate_expression (depth : nat) (self : CountdownDataset)
  : M (string * list Z * Z) :=
  let* r := attempt self in
  match r with
  | Some x => ret x
  | None =>
      match depth with
      | O => raise RecursionError
      | S depth' => _generate_expression depth' self
      end
  end.

Definition generate (depth : nat) (self : CountdownDataset) : M Sample :=
  let* '(expression, numbers, target) := _generate_expression depth self in
  let* numbers := if shuffle (config self) then Rng.shuffle numbers else ret numbers in
  let numbers_str := join ", " (map str_of_Z numbers) in
  let* template := Rng.choice (_prompt_templates self) in
  ret {| question := template numbers_str (str_of_Z target);
         answer := expression;
         metadata := {| md_numbers := numbers; md_target := target;
                        md_expression := expression |} |}.

(** [self[idx]]: the sample, and the object afterwards (no attribute is
    assigned). *)
Definition __getitem__ (depth : nat) (self : CountdownDataset) (idx : Z)
  : result Sample * CountdownDataset :=
  (match generate depth self (Random (ds_seed self + idx)) with
   | Ok (s, _) => Ok s
   | Raise e => Raise e
   end, self).

End Methods.

(** *** Reading an expression back

    The value of a text made of decimal numbers, [+ - * /], parentheses
    and blanks, with the usual precedence, in exact rational arithmetic. *)

Inductive token := TNum (n : Z) | TPlus | TMinus | TStar | TSlash | TLParen | TRParen.

Definition flush_num (acc : option Z) : list token :=
  match acc with Some n => [TNum n] | None => [] end.

Fixpoint tokenize (s : string) (acc : option Z) : option (list token) :=
  match s with
  | EmptyString => Some (flush_num acc)
  | String c s' =>
      if is_digit c then
        let d := Z.of_nat (nat_of_ascii c) - 48 in
        tokenize s' (Some (match acc with Some n => 10 * n + d | None => d end))
      else
        let sym :=
          if Ascii.eqb c " " then Some []
          else if Ascii.eqb c "+" then Some [TPlus]
          else if Ascii.eqb c "-" then Some [TMinus]
          else if Ascii.eqb c "*" then Some [TStar]
          else if Ascii.eqb c "/" then Some [TSlash]
          else if Ascii.eqb c "(" then Some [TLParen]
          else if Ascii.eqb c ")" then Some [TRParen]
          else None in
        match sym, tokenize s' None with
        | Some t, Some ts => Some (flush_num acc ++ t ++ ts)%list
        | _, _ => None
        end
  end.

Fixpoint parse_sum (fuel : nat) (ts : list token) : option (Q * list token) :=
  match fuel with
  | O => None
  | S f =>
      match parse_prod f ts with
      | Some (v, ts') => parse_sum_rest f v ts'
      | None => None
      end
  end
with parse_sum_rest (fuel : nat) (acc : Q) (ts : list token) : option (Q * list token) :=
  match fuel with
  | O => None
  | S f =>
      match ts with
      | TPlus :: ts' =>
          match parse_prod f ts' with
          | Some (v, ts'') => parse_sum_rest f (acc + v)%Q ts''
          | None => None
          end
      | TMinus :: ts' =>
          match parse_prod f ts' with
          | Some (v, ts'') => parse_sum_rest f (acc - v)%Q ts''
          | None => None
          end
      | _ => Some (acc, ts)
      end
  end
with parse_prod (fuel : nat) (ts : list token) : option (Q * list token) :=
  match fuel with
  | O => None
  | S f =>
      match parse_atom f ts with
      | Some (v, ts') => parse_prod_rest f v ts'
      | None => None
      end
  end
with parse_prod_rest (fuel : nat) (acc : Q) (ts : list token) : option (Q * list token) :=
  match fuel with
  | O => None
  | S f =>
      match ts with
      | TStar :: ts' =>
          match parse_atom f ts' with
          | Some (v, ts'') => parse_prod_rest f (acc * v)%Q ts''
          | None => None
          end
      | TSlash :: ts' =>
          match parse_atom f ts' with
          | Some (v, ts'') =>
              if Qeq_bool v 0 then None else parse_prod_rest f (acc / v)%Q ts''
          | None => None
          end
      | _ => Some (acc, ts)
      end
  end
with parse_atom (fuel : nat) (ts : list token) : option (Q * list token) :=
  match fuel with
  | O => None
  | S f =>
      match ts with
      | TNum n :: ts' => Some (inject_Z n, ts')
      | TMinus :: ts' =>
          match parse_atom f ts' with
          | Some (v, ts'') => Some ((- v)%Q, ts'')
          | None => None
          end
      | TLParen :: ts' =>
          match parse_sum f ts' with
          | Some (v, TRParen :: ts'') => Some (v, ts'')
          | _ => None
          end
      | _ => None
      end
  end.

(** The value of the text [s]; [None] when it is not an expression or
    divides by zero. *)
Definition eval_text (s : string) : option Q :=
  match tokenize s None with
  | None => None
  | Some ts =>
      match parse_sum (4 * length ts + 4)%nat ts with
      | Some (v, []) => Some (Qred v)
      | _ => None
      end
  end.

End Countdown.

(** ** Sequences of operations on one dataset object *)

Module LetterCountingOps.
Import LetterCounting.
Section Ops.
Context {R : PyRuntime}.




(** [n] calls of [next] in a row: what each returned, and the object
    afterwards. *)
Fixpoint iterate (n : nat) (self : LetterCountingDataset)
  : list (result Sample) * LetterCountingDataset :=
  match n with
  | O => ([], self)
  | S n' =>
      let (r, self') := __next__ self in
      let (rs, self'') := iterate n' self' in
      (r :: rs, self'')
  end.

(** [[self[i] for i in range(lo, lo + n)]], each outcome kept. *)
Fixpoint index_range (n : nat) (lo : Z) (self : LetterCountingDataset)
  : list (result Sample) :=
  match n with
  | O => []
  | S n' => fst (__getitem__ self lo) :: index_range n' (lo + 1) self
  end.

End Ops.
End LetterCountingOps.

Module CountdownOps.
Import Countdown.

(** [built n e]: [e] is [x0] combined from the left with [x1], ...,
    [x(n-1)], one operator each, in this order. *)
Inductive built : nat -> Expr -> Prop :=
| built_sym : built 1 (Sym 0)
| built_add n e : built n e -> built (S n) (Add e (Sym n))
| built_sub n e : built n e -> built (S n) (Sub e (Sym n))
| built_mul n e : built n e -> built (S n) (Mul e (Sym n))
| built_div n e : built n e -> built (S n) (Div e (Sym n)).

(** The two arms that replace a division by another operator. *)
Definition is_fallback (a : arm) : bool :=
  match a with
  | ArmFallbackSub | ArmFallbackAdd => true
  | _ => false
  end.

(** A configuration with a lower bound above the upper bound it is
    paired with. *)
Definition inconsistent (cfg : CountdownConfig) : Prop :=
  max_numbers cfg < min_numbers cfg
  \/ max_value cfg < min_value cfg
  \/ max_target cfg < min_target cfg.

Section Ops.
Context {R : PyRuntime}.


(** The generator state after [k] passes of [_generate_expression] in a
    row that all end in trying again; [None] if one of them does not. *)
Fixpoint after_rejections (k : nat) (self : CountdownDataset) (g : rng)
  : option rng :=
  match k with
  | O => Some g
  | S k' =>
      match attempt self g with
      | Ok (None, g') => after_rejections k' self g'
      | _ => None
      end
  end.

End Ops.
End CountdownOps.

(** ** color_cube_rotation.py: the dataset *)

Module ColorCubeDataset.
Import ColorCube.

(** [list(Color)]: the members in definition order. *)
Definition all_colors : list Color := [RED; GREEN; BLUE; YELLOW; WHITE; ORANGE].

(** [color.value] and [side.value] *)
Definition Color_value (c : Color) : string :=
  match c with
  | RED => "red" | GREEN => "green" | BLUE => "blue"
  | YELLOW => "yellow" | WHITE => "white" | ORANGE => "orange"
  end.

Definition Side_value (s : Side) : string :=
  match s with
  | TOP => "top" | RIGHT => "right" | FRONT => "front"
  | LEFT => "left" | BACK => "back" | BOTTOM => "bottom"
  end.

(** The attributes of a [ColorCubeRotationDataset]; [seed] is set by the
    constructor of the base class. *)
Record ColorCubeRotationDataset := mkDataset {
  config : ColorCubeRotationConfig;
  ds_seed : Z
}.

Record Metadata := mkMetadata {
  initial_state : list (string * string);
  rotations : list string;
  target_side : string;
  num_rotations : Z
}.

Record Sample := mkSample {
  question : string;
  answer : Color;
  metadata : Metadata
}.

(** [d.items()] for a dictionary filled in the order of [Side], as
    [_generate_cube] fills it. *)
Definition items (d : gmap Side Color) : list (Side * Color) :=
  omap (fun s => (fun c => (s, c)) <$> d !! s) all_sides.

(** [_generate_story] *)
Definition state_lines (initial_state : gmap Side Color) : result (list string) :=
  foldr (fun side acc =>
           match initial_state !! side, acc with
           | Some c, Ok ls =>
               Ok (("- a " +:+ Color_value c +:+ " " +:+ Side_value side +:+ " side") :: ls)
           | None, _ => Raise KeyError
           | _, Raise e => Raise e
           end)
        (Ok []) all_sides.

Definition rotation_line (from_side : Side) : string :=
  String (ascii_of_nat 10) EmptyString
  +:+ "The cube is rotated so that the side which was before at the "
  +:+ Side_value from_side +:+ " is now at the top.".

Definition question_line (target_side : Side) : string :=
  String (ascii_of_nat 10) EmptyString
  +:+ "What is now the color of the " +:+ Side_value target_side
  +:+ " side of the cube?".

Definition _generate_story (initial_state : gmap Side Color)
    (rotations : list Side) (target_side : Side) : result string :=
  and_then (state_lines initial_state) (fun ls =>
    Ok (join (String (ascii_of_nat 10) EmptyString)
          (("A cube has:" :: ls) ++ map rotation_line rotations
           ++ [question_line target_side]))).

(** The rotations of a list applied in order ([_rotate_to_top] for
    each); the first exception stops the run. *)
Fixpoint replay (rotations : list Side) (cube : Cube) : result unit * Cube :=
  match rotations with
  | [] => (Ok tt, cube)
  | from_side :: rest =>
      match _rotate_to_top cube from_side with
      | (Ok _, cube') => replay rest cube'
      | (Raise e, cube') => (Raise e, cube')
      end
  end.

(** Which face held, before [from_side] was rotated to the top, what the
    face [t] holds afterwards. *)
Definition came_from (from_side t : Side) : Side :=
  match from_side, t with
  | FRONT, TOP => FRONT | FRONT, FRONT => BOTTOM
  | FRONT, BOTTOM => BACK | FRONT, BACK => TOP
  | RIGHT, TOP => RIGHT | RIGHT, RIGHT => BOTTOM
  | RIGHT, BOTTOM => LEFT | RIGHT, LEFT => TOP
  | BACK, TOP => BACK | BACK, BACK => BOTTOM
  | BACK, BOTTOM => FRONT | BACK, FRONT => TOP
  | LEFT, TOP => LEFT | LEFT, LEFT => BOTTOM
  | LEFT, BOTTOM => RIGHT | LEFT, RIGHT => TOP
  | BOTTOM, TOP => BOTTOM | BOTTOM, BOTTOM => TOP
  | BOTTOM, FRONT => BACK | BOTTOM, BACK => FRONT
  | _, t => t
  end.

(** The side whose rotation to the top undoes that of [s]. *)
Definition opposite (s : Side) : Side :=
  match s with
  | FRONT => BACK | BACK => FRONT | LEFT => RIGHT | RIGHT => LEFT
  | BOTTOM => BOTTOM | TOP => TOP
  end.

Section Methods.
Context {R : PyRuntime}.

(** [_generate_cube] *)
Definition _generate_cube : M Cube :=
  let* colors := Rng.shuffle all_colors in
  ret (mkCube (list_to_map (zip all_sides colors))).

(** [for _ in range(n)] of [__getitem__]: the rotations recorded so far
    and the cube. *)
Fixpoint rotate_loop (n : nat) (rotations : list Side) (cube : Cube)
  : M (list Side * Cube) :=
  match n with
  | O => ret (rotations, cube)
  | S n' =>
      let* from_side := Rng.choice all_sides in
      if bool_decide (from_side <> TOP) then
        match _rotate_to_top cube from_side with
        | (Ok _, cube') => rotate_loop n' (rotations ++ [from_side]) cube'
        | (Raise e, _) => raise e
        end
      else rotate_loop n' rotations cube
  end.

Definition generate (self : ColorCubeRotationDataset) : M Sample :=
  let* cube := _generate_cube in
  let initial_state := colors cube in
  let* num_rotations := Rng.randint (min_rotations (config self))
                                    (max_rotations (config self)) in
  let* '(rotations, cube) := rotate_loop (Z.to_nat num_rotations) [] cube in
  let* target_side := Rng.choice all_sides in
  let* story := lift (_generate_story initial_state rotations target_side) in
  match colors cube !! target_side with
  | None => raise KeyError
  | Some answer =>
      ret {| question := story;
             answer := answer;
             metadata :=
               {| initial_state :=
                    map (fun kv => (Side_value (fst kv), Color_value (snd kv)))
                        (items initial_state);
                  rotations := map Side_value rotations;
                  target_side := Side_value target_side;
                  num_rotations := num_rotations |} |}
  end.

Definition __getitem__ (self : ColorCubeRotationDataset) (idx : Z)
  : result Sample * ColorCubeRotationDataset :=
  (match generate self (Random (ds_seed self + idx)) with
   | Ok (s, _) => Ok s
   | Raise e => Raise e
   end, self).

End Methods.

End ColorCubeDataset.

(** ** Sequences of registrations *)

Module FactoryOps.
Import Factory.

(** The arguments of one call of [register_dataset]. *)
Record registration := mkRegistration {
  reg_name : string;
  reg_dataset_cls : PyClass;
  reg_config_cls : PyClass
}.

(** The registry after the calls of a list, made in order, whether each
    returned or raised. *)
Definition register_all (calls : list registration)
    (reg : gmap string (PyClass * PyClass)) : gmap string (PyClass * PyClass) :=
  foldl (fun r c => snd (register_dataset (reg_name c) (reg_dataset_cls c)
                           (reg_config_cls c) r)) reg calls.

End FactoryOps.

(** ** Predicates used in the statements below *)

Module Shapes.

(** A cube that has all six faces. *)
Definition full (c : ColorCube.Cube) : Prop :=
  forall t : ColorCube.Side, is_Some (ColorCube.colors c !! t).


End Shapes.

(** ** A runtime that replays recorded draws

    The generator state is the list of draws still to come; [tape seed]
    is the list for [Random(seed)].  A set of characters is listed in
    the order of first occurrence. *)

Definition tape_randbelow (n : Z) (g : list Z) : Z * list Z :=
  match g with
  | [] => (0, [])
  | d :: g' => (d mod n, g')
  end.

Definition TapeRuntime (tape : Z -> list Z) : PyRuntime :=
  {| rng := list Z;
     Random := tape;
     _randbelow := tape_randbelow;
     list_of_set := remove_dups |}.

(** ** Concrete inputs *)

Module Examples.

(** The cube of the specification's scenario, before and after. *)
Definition cube_before : ColorCube.Cube :=
  ColorCube.mkCube (list_to_map
    [ (ColorCube.TOP, ColorCube.RED); (ColorCube.FRONT, ColorCube.BLUE);
      (ColorCube.BOTTOM, ColorCube.GREEN); (ColorCube.BACK, ColorCube.YELLOW);
      (ColorCube.LEFT, ColorCube.WHITE); (ColorCube.RIGHT, ColorCube.ORANGE) ]).

Definition cube_after : ColorCube.Cube :=
  ColorCube.mkCube (list_to_map
    [ (ColorCube.TOP, ColorCube.BLUE); (ColorCube.FRONT, ColorCube.GREEN);
      (ColorCube.BOTTOM, ColorCube.YELLOW); (ColorCube.BACK, ColorCube.RED);
      (ColorCube.LEFT, ColorCube.WHITE); (ColorCube.RIGHT, ColorCube.ORANGE) ]).

(** [CountdownConfig(seed=4)]: every other field at its default. *)
Definition countdown_default : Countdown.CountdownConfig :=
  {| Countdown.min_numbers := 4; Countdown.max_numbers := 6;
     Countdown.min_value := 1; Countdown.max_value := 100;
     Countdown.min_target := 100; Countdown.max_target := 999;
     Countdown.operators := ["+"; "-"; "*"; "/"];
     Countdown.shuffle := true;
     Countdown.seed := Some 4; Countdown.size := 500 |}.

Definition countdown_ds : Countdown.CountdownDataset :=
  {| Countdown.config := countdown_default;
     Countdown.ds_seed := 4;
     Countdown._prompt_templates := Countdown.prompt_templates |}.

(** The values [_randbelow] returns, in order, during
    [CountdownDataset(CountdownConfig(seed=4))[0]] under CPython 3.11:
    [Random(4)] asked for numbers below 3, 100, 100, 100, 100, 4, 3, 4,
    4, 4, 3, 2, 3. *)
Definition countdown_tape (s : Z) : list Z :=
  if s =? 4 then [0; 38; 13; 92; 50; 3; 0; 0; 0; 0; 1; 1; 0] else [].



(** Eleven numbers, all equal to 1, added up. *)
Definition countdown_eleven : Countdown.CountdownConfig :=
  {| Countdown.min_numbers := 11; Countdown.max_numbers := 11;
     Countdown.min_value := 1; Countdown.max_value := 1;
     Countdown.min_target := 1; Countdown.max_target := 100;
     Countdown.operators := ["+"];
     Countdown.shuffle := false;
     Countdown.seed := Some 0; Countdown.size := 1 |}.

Definition countdown_eleven_ds : Countdown.CountdownDataset :=
  {| Countdown.config := countdown_eleven;
     Countdown.ds_seed := 0;
     Countdown._prompt_templates := Countdown.prompt_templates |}.


(** Classes for the registry: the pair that [countdown.py] registers as
    ["countdown"], and another pair. *)
Definition CountdownDataset_cls : Factory.PyClass :=
  Factory.mkClass "CountdownDataset"
    ["CountdownDataset"; "ProceduralDataset"; "object"] false.
Definition CountdownConfig_cls : Factory.PyClass :=
  Factory.mkClass "CountdownConfig" ["CountdownConfig"; "object"] true.
Definition Other_cls : Factory.PyClass :=
  Factory.mkClass "OtherDataset" ["OtherDataset"; "ProceduralDataset"; "object"] false.
Definition OtherConfig_cls : Factory.PyClass :=
  Factory.mkClass "OtherConfig" ["OtherConfig"; "object"] true.

Definition registry1 : gmap string (Factory.PyClass * Factory.PyClass) :=
  <["countdown" := (CountdownDataset_cls, CountdownConfig_cls)]> ∅.

(** The corpus used in the letter-counting examples, the configuration
    [LetterCountingConfig(min_words=1, max_words=1, seed=6, size=2)] and
    the dataset object built from them. *)
Definition lc_text : string := "In the Year 2889".

Definition lc_config : LetterCounting.LetterCountingConfig :=
  {| LetterCounting.min_words := 1; LetterCounting.max_words := 1;
     LetterCounting.seed := Some 6; LetterCounting.size := 2 |}.

Definition lc_ds : LetterCounting.LetterCountingDataset :=
  {| LetterCounting.config := lc_config;
     LetterCounting.ds_seed := 6;
     LetterCounting.words := ["In"; "the"; "Year"; "2889"];
     LetterCounting._current_idx := None |}.

(** The values [_randbelow] returns under CPython 3.11 for [Random(5)],
    [Random(6)], [Random(7)] and [Random(8)] when asked for numbers
    below 1, below 4 and below the number of distinct characters of the
    chosen word. *)
Definition lc_tape (s : Z) : list Z :=
  if s =? 5 then [0; 2; 0]
  else if s =? 6 then [0; 3; 1]
  else if s =? 7 then [0; 1; 1]
  else if s =? 8 then [0; 2; 3]
  else [].

(** A store holding [lc_ds] at reference 1. *)
Definition lc_store : gmap nat LetterCounting.LetterCountingDataset :=
  {[ 1%nat := lc_ds ]}.

(** Two iterations over the dataset at reference 1, advanced in turn:
    [it1 = iter(d); a0 = next(it1); it2 = iter(d); b0 = next(it2);
    a1 = next(it1); b1 = next(it2)].  The value is what [iter] returned
    both times, what the first iteration produced and what the second
    produced. *)
Definition interleaved_iterations {R : PyRuntime}
  : result nat * result nat
    * list (result LetterCounting.Sample) * list (result LetterCounting.Sample) :=
  let '(it1, h) := LetterCounting.iter 1%nat lc_store in
  let '(a0, h) := LetterCounting.next_of it1 h in
  let '(it2, h) := LetterCounting.iter 1%nat h in
  let '(b0, h) := LetterCounting.next_of it2 h in
  let '(a1, h) := LetterCounting.next_of it1 h in
  let '(b1, h) := LetterCounting.next_of it2 h in
  (it1, it2, [a0; a1], [b0; b1]).

(** The runtimes that replay the recorded draws. *)
Definition lc_runtime : PyRuntime := TapeRuntime lc_tape.
Definition countdown_runtime : PyRuntime := TapeRuntime countdown_tape.

(** Configurations with a lower bound above its upper bound. *)
Definition lc_reversed : LetterCounting.LetterCountingConfig :=
  {| LetterCounting.min_words := 5; LetterCounting.max_words := 3;
     LetterCounting.seed := Some 0; LetterCounting.size := 10 |}.

Definition cube_reversed : ColorCube.ColorCubeRotationConfig :=
  {| ColorCube.min_rotations := 3; ColorCube.max_rotations := 1;
     ColorCube.seed := Some 0; ColorCube.size := 10 |}.

Definition countdown_reversed : Countdown.CountdownConfig :=
  {| Countdown.min_numbers := 6; Countdown.max_numbers := 4;
     Countdown.min_value := 1; Countdown.max_value := 100;
     Countdown.min_target := 100; Countdown.max_target := 999;
     Countdown.operators := ["+"; "-"; "*"; "/"];
     Countdown.shuffle := true;
     Countdown.seed := Some 0; Countdown.size := 10 |}.

(** [ColorCubeRotationConfig(seed=3)] (rotations 1..3), the dataset
    object, and the values [_randbelow] returns during [dataset[0]] under
    CPython 3.11: [Random(3)] asked for numbers below 6, 5, 4, 3, 2 (the
    shuffle), 3, 6, 6, 6 and 6. *)
Definition cube_config : ColorCube.ColorCubeRotationConfig :=
  {| ColorCube.min_rotations := 1; ColorCube.max_rotations := 3;
     ColorCube.seed := Some 3; ColorCube.size := 500 |}.

Definition cube_ds : ColorCubeDataset.ColorCubeRotationDataset :=
  {| ColorCubeDataset.config := cube_config; ColorCubeDataset.ds_seed := 3 |}.

Definition cube_tape (s : Z) : list Z :=
  if s =? 3 then [1; 4; 1; 1; 1; 2; 4; 0; 4; 0] else [].

Definition cube_runtime : PyRuntime := TapeRuntime cube_tape.

(** A cube dictionary without the key [BOTTOM]. *)
Definition cube_no_bottom : ColorCube.Cube :=
  ColorCube.mkCube (list_to_map
    [ (ColorCube.TOP, ColorCube.RED); (ColorCube.FRONT, ColorCube.BLUE);
      (ColorCube.BACK, ColorCube.YELLOW);
      (ColorCube.LEFT, ColorCube.WHITE); (ColorCube.RIGHT, ColorCube.ORANGE) ]).

(** A class that does not derive from [ProceduralDataset], an instance
    of [CountdownConfig], and a sequence of registrations: ["countdown"]
    twice with different classes, then a class that is not a dataset. *)
Definition Plain_cls : Factory.PyClass :=
  Factory.mkClass "Plain" ["Plain"; "object"] false.

Definition countdown_config_obj : Factory.PyObject :=
  Factory.mkObject CountdownConfig_cls.

Definition registrations : list FactoryOps.registration :=
  [ FactoryOps.mkRegistration "countdown" CountdownDataset_cls CountdownConfig_cls;
    FactoryOps.mkRegistration "countdown" Other_cls OtherConfig_cls;
    FactoryOps.mkRegistration "plain" Plain_cls OtherConfig_cls ].

(** A dataset whose corpus has fewer words than [min_words]. *)
Definition lc_short_ds : LetterCounting.LetterCountingDataset :=
  {| LetterCounting.config :=
       {| LetterCounting.min_words := 5; LetterCounting.max_words := 15;
          LetterCounting.seed := Some 6; LetterCounting.size := 2 |};
     LetterCounting.ds_seed := 6;
     LetterCounting.words := ["In"; "the"; "Year"; "2889"];
     LetterCounting._current_idx := None |}.



End Examples.

(** * Properties *)

(** ** The runtime *)

Lemma TapeRuntime_laws (tape : Z -> list Z) : PyRuntimeLaws (TapeRuntime tape).
Proof.
  split.
  - intros n [|d g] Hn; simpl; [lia | apply Z.mod_pos_bound; lia].
  - intros s. apply NoDup_remove_dups.
  - intros s c. apply elem_of_remove_dups.
Qed.

Section RngFacts.
Context {R : PyRuntime}.

Lemma randint_empty (a b : Z) (g : rng) :
  b < a -> exists msg, Rng.randint a b g = Raise (ValueError msg).
Proof.
  intros H. unfold Rng.randint.
  destruct (Z.ltb_spec 0 (b + 1 - a)); [lia | eauto].
Qed.

Lemma randint_draw (a b : Z) (g : rng) :
  a <= b ->
  Rng.randint a b g = Ok (a + fst (_randbelow (b + 1 - a) g), snd (_randbelow (b + 1 - a) g)).
Proof.
  intros H. unfold Rng.randint.
  destruct (Z.ltb_spec 0 (b + 1 - a)); [| lia].
  by destruct (_randbelow (b + 1 - a) g).
Qed.


Context {L : PyRuntimeLaws R}.

Lemma randint_range (a b k : Z) (g g' : rng) :
  Rng.randint a b g = Ok (k, g') -> a <= k <= b.
Proof.
  unfold Rng.randint. destruct (Z.ltb_spec 0 (b + 1 - a)) as [Hw|]; [| done].
  pose proof (_randbelow_range (b + 1 - a) g Hw) as Hr.
  destruct (_randbelow (b + 1 - a) g) as [j g1]. simpl in Hr.
  intros [= <- <-]. lia.
Qed.

Lemma randint_total (a b : Z) (g : rng) :
  a <= b -> exists k g', Rng.randint a b g = Ok (k, g') /\ a <= k <= b.
Proof.
  intros H. rewrite (randint_draw a b g H).
  pose proof (_randbelow_range (b + 1 - a) g ltac:(lia)).
  eexists _, _. split; [done | lia].
Qed.

Lemma randint_point (a : Z) (g : rng) :
  exists g', Rng.randint a a g = Ok (a, g').
Proof.
  destruct (randint_total a a g ltac:(lia)) as (k & g' & E & Hk).
  exists g'. rewrite E. do 2 f_equal. lia.
Qed.

Lemma choice_total {A} (seq : list A) (g : rng) :
  seq <> [] -> exists x g', Rng.choice seq g = Ok (x, g') /\ x ∈ seq.
Proof.
  intros Hne. unfold Rng.choice. destruct seq as [|y seq]; [done |].
  pose proof (_randbelow_range (Z.of_nat (length (y :: seq))) g) as Hr.
  destruct (_randbelow _ g) as [k g1]. simpl fst in Hr.
  assert (Hk : (Z.to_nat k < length (y :: seq))%nat) by (simpl in *; lia).
  destruct (lookup_lt_is_Some_2 _ _ Hk) as [z Hz]. rewrite Hz.
  exists z, g1. split; [done |]. eapply list_elem_of_lookup_2, Hz.
Qed.

Lemma choice_single {A} (x : A) (g : rng) :
  exists g', Rng.choice [x] g = Ok (x, g').
Proof.
  destruct (choice_total [x] g ltac:(done)) as (y & g' & E & Hy).
  exists g'. rewrite E. apply list_elem_of_singleton in Hy. by subst.
Qed.

End RngFacts.

(** ** The cube *)

Section CubeFacts.
Import ColorCube.

Lemma rotate_front_to_top_eq (self : Cube) (t f b k : Color) :
  colors self !! TOP = Some t -> colors self !! FRONT = Some f ->
  colors self !! BOTTOM = Some b -> colors self !! BACK = Some k ->
  rotate_front_to_top self =
    (Ok tt, mkCube (<[BACK := t]> (<[BOTTOM := k]> (<[FRONT := b]>
                     (<[TOP := f]> (colors self)))))).
Proof.
  intros Ht Hf Hb Hk. unfold rotate_front_to_top, assign_from.
  by rewrite Hf, Hb, Hk, Ht.
Qed.

(** C6.  On the cube TOP red, FRONT blue, BOTTOM green, BACK yellow,
    LEFT white, RIGHT orange, [rotate_front_to_top] gives TOP blue,
    FRONT green, BOTTOM yellow, BACK red, LEFT white, RIGHT orange; and
    on every cube that has the four faces it succeeds and moves the
    content of FRONT to TOP, of BOTTOM to FRONT, of BACK to BOTTOM and of
    TOP to BACK, leaving what LEFT and RIGHT hold as it was. *)
Theorem rotate_front_to_top_cycle :
  rotate_front_to_top Examples.cube_before = (Ok tt, Examples.cube_after)
  /\ forall (self : Cube) (t f b k : Color),
       colors self !! TOP = Some t -> colors self !! FRONT = Some f ->
       colors self !! BOTTOM = Some b -> colors self !! BACK = Some k ->
       exists self',
         rotate_front_to_top self = (Ok tt, self')
         /\ colors self' !! TOP = Some f
         /\ colors self' !! FRONT = Some b
         /\ colors self' !! BOTTOM = Some k
         /\ colors self' !! BACK = Some t
         /\ colors self' !! LEFT = colors self !! LEFT
         /\ colors self' !! RIGHT = colors self !! RIGHT.
Proof.
  split.
  - by vm_compute.
  - intros self t f b k Ht Hf Hb Hk.
    eexists. split; [by apply rotate_front_to_top_eq |].
    simpl. by simplify_map_eq.
Qed.

Lemma rotate_front_to_top_cycle_witness :
  exists self',
    rotate_front_to_top Examples.cube_before = (Ok tt, self')
    /\ colors self' !! TOP = Some BLUE
    /\ colors self' !! FRONT = Some GREEN
    /\ colors self' !! BOTTOM = Some YELLOW
    /\ colors self' !! BACK = Some RED
    /\ colors self' !! LEFT = colors Examples.cube_before !! LEFT
    /\ colors self' !! RIGHT = colors Examples.cube_before !! RIGHT.
Proof.
  apply (proj2 rotate_front_to_top_cycle Examples.cube_before RED BLUE GREEN YELLOW);
    reflexivity.
Defined.

End CubeFacts.

(** ** The registry *)

Section FactoryFacts.
Import Factory.

Lemma register_dataset_taken (name : string) (d c : PyClass)
    (reg : gmap string (PyClass * PyClass)) :
  is_Some (reg !! name) ->
  exists msg, register_dataset name d c reg = (Raise (ValueError msg), reg).
Proof.
  intros [p Hp]. unfold register_dataset. rewrite Hp. eauto.
Qed.

Lemma register_dataset_ok_inv (name : string) (d c : PyClass)
    (reg reg' : gmap string (PyClass * PyClass)) :
  register_dataset name d c reg = (Ok tt, reg') ->
  reg !! name = None /\ reg' = <[name := (d, c)]> reg.
Proof.
  unfold register_dataset. destruct (reg !! name); [done |].
  destruct (negb (issubclass d ProceduralDataset)); [done |].
  destruct (negb (is_dataclass c)); [done |].
  by intros [= <-].
Qed.

(** C7.  After [register_dataset name d1 c1] has succeeded, a second
    [register_dataset] under the same name, whatever classes it is
    given, raises [ValueError] and leaves the registry as it was: the
    name is still bound to [(d1, c1)], and [create_dataset] for that
    name with an instance of [c1] still builds a [d1]. *)
Theorem register_dataset_twice (name : string) (d1 c1 d2 c2 : PyClass)
    (reg reg1 : gmap string (PyClass * PyClass)) :
  register_dataset name d1 c1 reg = (Ok tt, reg1) ->
  (exists msg, register_dataset name d2 c2 reg1 = (Raise (ValueError msg), reg1))
  /\ reg1 !! name = Some (d1, c1)
  /\ forall (config : PyObject) (seed : option Z) (size : Z),
       isinstance config c1 = true ->
       create_dataset name config seed size reg1
       = Ok (mkInstantiation d1 config seed size).
Proof.
  intros H. apply register_dataset_ok_inv in H as [_ ->].
  assert (Hl : (<[name := (d1, c1)]> reg) !! name = Some (d1, c1))
    by apply lookup_insert_eq.
  split; [apply register_dataset_taken; by rewrite Hl |].
  split; [done |].
  intros config seed size Hi. unfold create_dataset. by rewrite Hl, Hi.
Qed.

End FactoryFacts.

Lemma register_dataset_twice_witness :
  (exists msg, Factory.register_dataset "countdown" Examples.Other_cls
                 Examples.OtherConfig_cls Examples.registry1
               = (Raise (ValueError msg), Examples.registry1))
  /\ Examples.registry1 !! "countdown"
     = Some (Examples.CountdownDataset_cls, Examples.CountdownConfig_cls)
  /\ forall (config : Factory.PyObject) (seed : option Z) (size : Z),
       Factory.isinstance config Examples.CountdownConfig_cls = true ->
       Factory.create_dataset "countdown" config seed size Examples.registry1
       = Ok (Factory.mkInstantiation Examples.CountdownDataset_cls config seed size).
Proof.
  apply (register_dataset_twice "countdown" Examples.CountdownDataset_cls
           Examples.CountdownConfig_cls Examples.Other_cls
           Examples.OtherConfig_cls ∅ Examples.registry1).
  reflexivity.
Defined.

(** ** Computations in [M] *)

Section MonadFacts.
Context {R : PyRuntime}.

Lemma bind_Ok {A B} (c : M A) (k : A -> M B) (g g' : rng) (a : A) :
  c g = Ok (a, g') -> bind c k g = k a g'.
Proof. unfold bind. by intros ->. Qed.

Lemma bind_Raise {A B} (c : M A) (k : A -> M B) (g : rng) (e : exn) :
  c g = Raise e -> bind c k g = Raise e.
Proof. unfold bind. by intros ->. Qed.

Lemma bind_Ok_inv {A B} (c : M A) (k : A -> M B) (g g'' : rng) (b : B) :
  bind c k g = Ok (b, g'') ->
  exists a g', c g = Ok (a, g') /\ k a g' = Ok (b, g'').
Proof.
  unfold bind. destruct (c g) as [[a g']|e]; [| done]. eauto.
Qed.

End MonadFacts.

(** ** Letter counting *)

Section LetterCountingFacts.
Import LetterCounting LetterCountingOps.
Context {R : PyRuntime}.

Lemma letter_validate_Ok (cfg : LetterCountingConfig) :
  validate cfg = Ok tt <-> 0 < min_words cfg <= max_words cfg.
Proof.
  unfold validate, py_assert, and_then.
  destruct (Z.ltb_spec 0 (min_words cfg)), (Z.leb_spec (min_words cfg) (max_words cfg));
    split; (done || lia).
Qed.

Lemma letter_getitem_self (self : LetterCountingDataset) (idx : Z) :
  snd (__getitem__ self idx) = self.
Proof. reflexivity. Qed.

(** The sample depends on the object through [config], [seed] and
    [words] only. *)
Lemma getitem_params (self1 self2 : LetterCountingDataset) (idx : Z) :
  config self1 = config self2 -> ds_seed self1 = ds_seed self2 ->
  words self1 = words self2 ->
  fst (__getitem__ self1 idx) = fst (__getitem__ self2 idx).
Proof.
  destruct self1, self2. simpl. intros -> -> ->. reflexivity.
Qed.




Lemma next_stop (self : LetterCountingDataset) (cur : Z) :
  _current_idx self = Some cur -> size (config self) <= cur ->
  __next__ self = (Raise StopIteration, self).
Proof.
  intros Hc Hs. unfold __next__. rewrite Hc.
  by destruct (Z.leb_spec (size (config self)) cur); [| lia].
Qed.

Context {L : PyRuntimeLaws R}.

(** With a validated configuration and a corpus of at least [max_words]
    words, the generation returns a sample from every generator state. *)
Lemma generate_total (self : LetterCountingDataset) (g : rng) :
  validate (config self) = Ok tt ->
  max_words (config self) <= Z.of_nat (length (words self)) ->
  exists s g', generate self g = Ok (s, g').
Proof.
  intros Hv Hw. apply letter_validate_Ok in Hv.
  destruct (randint_total (min_words (config self)) (max_words (config self)) g)
    as (n & g1 & E1 & Hn); [lia |].
  destruct (randint_total 0 (Z.of_nat (length (words self)) - n) g1)
    as (st & g2 & E2 & Hst); [lia |].
  unfold generate.
  rewrite (bind_Ok _ _ _ _ _ E1). rewrite (bind_Ok _ _ _ _ _ E2).
  match goal with
  | |- context [Rng.choice ?l] =>
      destruct (choice_total l g2) as (c & g3 & E3 & _)
  end.
  { by destruct (list_of_set _). }
  rewrite (bind_Ok _ _ _ _ _ E3). unfold ret. eauto.
Qed.

Lemma getitem_total (self : LetterCountingDataset) (idx : Z) :
  validate (config self) = Ok tt ->
  max_words (config self) <= Z.of_nat (length (words self)) ->
  exists s, __getitem__ self idx = (Ok s, self).
Proof.
  intros Hv Hw.
  destruct (generate_total self (Random (ds_seed self + idx)) Hv Hw) as (s & g' & E).
  exists s. unfold __getitem__. by rewrite E.
Qed.


End LetterCountingFacts.

Section LetterCountingIteration.
Import LetterCounting LetterCountingOps.
Context {R : PyRuntime} {L : PyRuntimeLaws R}.

Lemma index_range_params (n : nat) (lo : Z) (self1 self2 : LetterCountingDataset) :
  config self1 = config self2 -> ds_seed self1 = ds_seed self2 ->
  words self1 = words self2 ->
  index_range n lo self1 = index_range n lo self2.
Proof.
  intros Hc Hs Hw. revert lo. induction n as [|n IH]; intros lo; [done |].
  cbn [index_range]. f_equal; [by apply getitem_params | apply IH].
Qed.

Lemma next_advance (self : LetterCountingDataset) (cur : Z) :
  validate (config self) = Ok tt ->
  max_words (config self) <= Z.of_nat (length (words self)) ->
  _current_idx self = Some cur -> cur < size (config self) ->
  __next__ self = (fst (__getitem__ self cur), set_current_idx self (cur + 1))
  /\ is_ok (fst (__getitem__ self cur)) = true.
Proof.
  intros Hv Hw Hc Hlt. unfold __next__. rewrite Hc.
  destruct (Z.leb_spec (size (config self)) cur); [lia |].
  destruct (getitem_total self cur Hv Hw) as [s ->]. by rewrite Hc.
Qed.

(** [n] calls of [next] from cursor [cur], none of them past the end,
    return the samples of the indices [cur], ..., [cur + n - 1]. *)
Lemma iterate_pass (n : nat) (self : LetterCountingDataset) (cur : Z) :
  validate (config self) = Ok tt ->
  max_words (config self) <= Z.of_nat (length (words self)) ->
  _current_idx self = Some cur ->
  (n = O \/ cur + Z.of_nat n <= size (config self)) ->
  iterate n self
  = (index_range n cur self,
     match n with O => self | S _ => set_current_idx self (cur + Z.of_nat n) end).
Proof.
  revert self cur. induction n as [|n IH]; intros self cur Hv Hw Hc Hn; [done |].
  destruct Hn as [|Hn]; [done |].
  simpl iterate.
  destruct (next_advance self cur Hv Hw Hc) as [-> _]; [lia |].
  rewrite (IH (set_current_idx self (cur + 1)) (cur + 1)); try done.
  - simpl index_range.
    rewrite (index_range_params n (cur + 1) (set_current_idx self (cur + 1)) self)
      by done.
    f_equal. destruct n; unfold set_current_idx; simpl; do 2 f_equal; lia.
  - right. simpl. lia.
Qed.

(** C3, as the code has it.  Indexing checks no bound: with a validated
    configuration and a corpus of at least [max_words] words, [self[idx]]
    returns a sample for every integer [idx], the declared size and -1
    included, and leaves the object as it was.  The size limits
    iteration only: [__next__] raises [StopIteration] once the cursor has
    reached it. *)
Theorem getitem_unbounded (self : LetterCountingDataset) (idx : Z) :
  validate (config self) = Ok tt ->
  max_words (config self) <= Z.of_nat (length (words self)) ->
  (exists s, __getitem__ self idx = (Ok s, self))
  /\ (exists s, __getitem__ self (size (config self)) = (Ok s, self))
  /\ (exists s, __getitem__ self (-1) = (Ok s, self))
  /\ forall cur, _current_idx self = Some cur -> size (config self) <= cur ->
       __next__ self = (Raise StopIteration, self).
Proof.
  intros Hv Hw. repeat split; try by apply getitem_total.
  intros cur. apply next_stop.
Qed.

(** C4, as the code has it.  [iter(d)] returns the reference [d] it was
    given and sets the cursor of that object to 0, whatever the cursor
    was: every iteration over a dataset is the dataset object and shares
    its one cursor.  A pass that nothing interrupts, [size + 1] calls of
    [next] after [iter], returns the samples of the indices 0, ...,
    [size - 1] in order and then raises [StopIteration]. *)
Theorem iter_returns_self (h : gmap nat LetterCountingDataset) (d : nat)
    (self : LetterCountingDataset) :
  h !! d = Some self ->
  validate (config self) = Ok tt ->
  max_words (config self) <= Z.of_nat (length (words self)) ->
  iter d h = (Ok d, <[d := set_current_idx self 0]> h)
  /\ fst (iterate (S (Z.to_nat (size (config self)))) (__iter__ self))
     = (index_range (Z.to_nat (size (config self))) 0 self ++ [Raise StopIteration])%list.
Proof.
  intros Hd Hv Hw. split.
  { unfold iter. by rewrite Hd. }
  set (n := Z.to_nat (size (config self))).
  assert (Hn : n = O \/ 0 + Z.of_nat n <= size (config self)) by lia.
  pose proof (iterate_pass n (__iter__ self) 0 Hv Hw eq_refl Hn) as Hp.
  rewrite (index_range_params n 0 (__iter__ self) self) in Hp by done.
  assert (Hlast : forall self', config self' = config self ->
            _current_idx self' = Some (Z.of_nat n) \/
            (n = O /\ _current_idx self' = Some 0) ->
            __next__ self' = (Raise StopIteration, self')).
  { intros self' Hcfg [Hc|[Hz Hc]]; eapply next_stop; try eassumption;
      rewrite Hcfg; lia. }
  clear Hn. revert Hp.
  generalize (index_range n 0 self) as rs.
  intros rs Hp.
  assert (Hgen : forall m (x : LetterCountingDataset) rs' x',
            iterate m x = (rs', x') ->
            __next__ x' = (Raise StopIteration, x') ->
            fst (iterate (S m) x) = (rs' ++ [Raise StopIteration])%list).
  { induction m as [|m IH]; intros x rs' x' Hi Hs.
    - injection Hi as <- <-. simpl. by rewrite Hs.
    - simpl in Hi. destruct (__next__ x) as [r x1] eqn:En.
      destruct (iterate m x1) as [rs1 x2] eqn:Ei. injection Hi as <- <-.
      specialize (IH x1 rs1 x2 Ei Hs).
      change (iterate (S (S m)) x)
        with (let (r, self') := __next__ x in
              let (rs, self'') := iterate (S m) self' in (r :: rs, self'')).
      rewrite En. destruct (iterate (S m) x1) as [rs2 x3]. simpl in *.
      by rewrite IH. }
  eapply Hgen; [exact Hp |].
  apply Hlast; destruct n; simpl; auto.
Qed.

End LetterCountingIteration.

Section LetterCountingExamples.
Import LetterCounting LetterCountingOps Examples.

#[local] Existing Instance lc_runtime.

Lemma lc_ds_built : __init__ lc_text 0 lc_config = Ok lc_ds.
Proof. by vm_compute. Qed.

Lemma getitem_unbounded_witness :
  (exists s, __getitem__ lc_ds 0 = (Ok s, lc_ds))
  /\ (exists s, __getitem__ lc_ds (size (config lc_ds)) = (Ok s, lc_ds))
  /\ (exists s, __getitem__ lc_ds (-1) = (Ok s, lc_ds))
  /\ forall cur, _current_idx lc_ds = Some cur -> size (config lc_ds) <= cur ->
       __next__ lc_ds = (Raise StopIteration, lc_ds).
Proof.
  apply (@getitem_unbounded lc_runtime (TapeRuntime_laws lc_tape) lc_ds 0).
  - reflexivity.
  - simpl. lia.
Defined.

(** C3, as stated, fails: the dataset [lc_ds] has size 2, and both
    [lc_ds[2]] and [lc_ds[-1]] return a sample. *)
Lemma getitem_at_size_and_minus_one :
  size (config lc_ds) = 2
  /\ (exists s, fst (__getitem__ lc_ds 2) = Ok s /\ span (metadata s) = ["Year"])
  /\ (exists s, fst (__getitem__ lc_ds (-1)) = Ok s /\ span (metadata s) = ["Year"]).
Proof.
  split; [reflexivity |]. split; eexists; split; by vm_compute.
Qed.

Lemma iter_returns_self_witness :
  iter 1%nat lc_store = (Ok 1%nat, <[1%nat := set_current_idx lc_ds 0]> lc_store)
  /\ fst (iterate (S (Z.to_nat (size (config lc_ds)))) (__iter__ lc_ds))
     = (index_range (Z.to_nat (size (config lc_ds))) 0 lc_ds ++ [Raise StopIteration])%list.
Proof.
  apply (@iter_returns_self lc_runtime (TapeRuntime_laws lc_tape) lc_store 1%nat lc_ds).
  - reflexivity.
  - reflexivity.
  - simpl. lia.
Defined.

(** C4, as stated, fails: of two iterations over [lc_ds] (size 2)
    advanced in turn, both are the reference 1; the first produces the
    samples of the indices 0 and 1, the second the sample of index 0 and
    then [StopIteration], without ever reaching index 1. *)
Lemma interleaved_iterations_interfere :
  size (config lc_ds) = 2
  /\ interleaved_iterations
     = (Ok 1%nat, Ok 1%nat,
        [fst (__getitem__ lc_ds 0); fst (__getitem__ lc_ds 1)],
        [fst (__getitem__ lc_ds 0); Raise StopIteration])
  /\ is_ok (fst (__getitem__ lc_ds 1)) = true.
Proof. split; [reflexivity |]. split; by vm_compute. Qed.

(** C5, at the corpus ["In the Year 2889"] with
    [LetterCountingConfig(min_words=1, max_words=1, seed=6, size=2)]:
    [dataset[0]] takes the span [["2889"]], which has no letter, and
    asks for the character ["8"], which is not a letter; the default
    letter is not used.  The answer is the number of times ["8"] occurs
    in the span. *)
Theorem getitem_targets_digit :
  __init__ lc_text 0 lc_config = Ok lc_ds
  /\ exists s,
       __getitem__ lc_ds 0 = (Ok s, lc_ds)
       /\ span (metadata s) = ["2889"]
       /\ forallb (fun c => negb (is_letter c))
            (list_ascii_of_string (join EmptyString (span (metadata s)))) = true
       /\ target_letter (metadata s) = "8"%char
       /\ is_letter (target_letter (metadata s)) = false
       /\ answer s = "2".
Proof.
  split; [by vm_compute |]. eexists. split; [by vm_compute |].
  repeat split; by vm_compute.
Qed.

End LetterCountingExamples.

(** ** Countdown *)

Section CountdownFacts.
Import Countdown CountdownOps.
Context {R : PyRuntime}.

Lemma countdown_validate_Ok (cfg : CountdownConfig) :
  validate cfg = Ok tt ->
  1 < min_numbers cfg <= max_numbers cfg
  /\ 0 < min_value cfg <= max_value cfg
  /\ 0 < min_target cfg <= max_target cfg
  /\ operators cfg <> []
  /\ (forall op, op ∈ operators cfg -> op ∈ allowed_operators).
Proof.
  unfold validate, py_assert, and_then.
  destruct (Z.ltb_spec 1 (min_numbers cfg)); [| done].
  destruct (Z.leb_spec (min_numbers cfg) (max_numbers cfg)); [| done].
  destruct (Z.ltb_spec 0 (min_value cfg)); [| done].
  destruct (Z.leb_spec (min_value cfg) (max_value cfg)); [| done].
  destruct (Z.ltb_spec 0 (min_target cfg)); [| done].
  destruct (Z.leb_spec (min_target cfg) (max_target cfg)); [| done].
  destruct (Z.ltb_spec 0 (Z.of_nat (length (operators cfg)))) as [Hl|]; [| done].
  destruct (forallb _ (operators cfg)) eqn:Hf; [| done].
  intros _. repeat split; try lia.
  - intros E. rewrite E in Hl. simpl in Hl. lia.
  - intros op Hop. rewrite forallb_forall in Hf.
    apply list_elem_of_In, Hf in Hop. by apply bool_decide_eq_true in Hop.
Qed.

(** [validate] rejects every configuration with a lower bound above its
    upper bound. *)
Lemma validate_inconsistent (cfg : CountdownConfig) :
  inconsistent cfg -> exists msg, validate cfg = Raise (AssertionError msg).
Proof.
  intros Hi. destruct (validate cfg) as [[]|e] eqn:E.
  - apply countdown_validate_Ok in E. unfold inconsistent in Hi. lia.
  - revert E. unfold validate, py_assert, and_then.
    repeat match goal with
           | |- context [if ?b then _ else _] => destruct b
           end; intros [= <-]; eauto.
Qed.

Lemma countdown_getitem_self (depth : nat) (self : CountdownDataset) (idx : Z) :
  snd (__getitem__ depth self idx) = self.
Proof. reflexivity. Qed.


Lemma generate_expression_unfold (depth : nat) (self : CountdownDataset) (g : rng) :
  _generate_expression depth self g
  = match attempt self g with
    | Ok (Some x, g') => Ok (x, g')
    | Ok (None, g') =>
        match depth with
        | O => Raise RecursionError
        | S depth' => _generate_expression depth' self g'
        end
    | Raise e => Raise e
    end.
Proof.
  destruct depth; simpl; unfold bind;
    by destruct (attempt self g) as [[[x|] g']|e].
Qed.

(** A deeper allowance of recursion does not change a sample that was
    returned. *)
Lemma generate_expression_deeper (d d' : nat) (self : CountdownDataset)
    (g g' : rng) (x : string * list Z * Z) :
  (d <= d')%nat ->
  _generate_expression d self g = Ok (x, g') ->
  _generate_expression d' self g = Ok (x, g').
Proof.
  revert d' g. induction d as [|d IH]; intros d' g Hle;
    rewrite (generate_expression_unfold _ self g),
            (generate_expression_unfold d' self g);
    destruct (attempt self g) as [[[y|] g1]|e]; try done.
  destruct d' as [|d']; [lia |]. apply IH. lia.
Qed.

Lemma generate_expression_accept (k depth : nat) (self : CountdownDataset)
    (g g' g'' : rng) (x : string * list Z * Z) :
  after_rejections k self g = Some g' ->
  attempt self g' = Ok (Some x, g'') ->
  (k <= depth)%nat ->
  _generate_expression depth self g = Ok (x, g'').
Proof.
  revert depth g. induction k as [|k IH]; intros depth g Hr Ha Hle.
  - injection Hr as ->. by rewrite generate_expression_unfold, Ha.
  - simpl in Hr. rewrite generate_expression_unfold.
    destruct (attempt self g) as [[[y|] g1]|e]; try done.
    destruct depth as [|depth]; [lia |]. apply IH; [done | done | lia].
Qed.


(** An accepted target lies within the configured bounds, and is the
    truncated value of the expression on the numbers returned. *)
Lemma finish_accept (self : CountdownDataset) (st : LoopState)
    (s : string) (nums : list Z) (t : Z) :
  finish self st = Some (s, nums, t) ->
  min_target (config self) <= t <= max_target (config self)
  /\ nums = numbers st
  /\ s = replace_syms 0 (numbers st) (str_expr (expr st))
  /\ exists q, subs (numbers st) (expr st) = Some q /\ t = int_of_Q q.
Proof.
  unfold finish. destruct (subs _ _) as [q|]; [| done].
  destruct (Z.leb_spec (min_target (config self)) (int_of_Q q)),
           (Z.leb_spec (int_of_Q q) (max_target (config self))); try done.
  simpl. intros [= <- <- <-]. repeat split; try lia. eauto.
Qed.

End CountdownFacts.

Section CountdownBuild.
Import Countdown CountdownOps.
Context {R : PyRuntime} {L : PyRuntimeLaws R}.

Lemma draw_numbers_range (n : nat) (lo hi : Z) (g g' : rng) (xs : list Z) :
  draw_numbers n lo hi g = Ok (xs, g') -> Forall (fun x => lo <= x <= hi) xs.
Proof.
  revert g xs. induction n as [|n IH]; intros g xs; simpl.
  - unfold ret. intros [= <- <-]. constructor.
  - intros H. apply bind_Ok_inv in H as (x & g1 & Hx & H).
    apply bind_Ok_inv in H as (ys & g2 & Hys & H).
    unfold ret in H. injection H as <- <-.
    constructor; [by eapply randint_range | by eapply IH].
Qed.

Lemma draw_numbers_total (n : nat) (lo hi : Z) (g : rng) :
  lo <= hi ->
  exists xs g', draw_numbers n lo hi g = Ok (xs, g') /\ length xs = n.
Proof.
  intros Hle. revert g. induction n as [|n IH]; intros g; simpl.
  - by exists [], g.
  - destruct (randint_total lo hi g Hle) as (x & g1 & E & _).
    rewrite (bind_Ok _ _ _ _ _ E).
    destruct (IH g1) as (xs & g2 & E2 & Hl).
    rewrite (bind_Ok _ _ _ _ _ E2). unfold ret.
    exists (x :: xs), g2. split; [done | simpl; lia].
Qed.

Lemma allowed_operator_cases (op : string) :
  op ∈ allowed_operators -> op = "+" \/ op = "-" \/ op = "*" \/ op = "/".
Proof.
  unfold allowed_operators. rewrite !elem_of_cons, elem_of_nil. tauto.
Qed.

Lemma Qeq_bool_inject_Z_nonzero (z : Z) :
  z <> 0 -> Qeq_bool (inject_Z z) 0 = false.
Proof.
  intros Hz. destruct (Qeq_bool (inject_Z z) 0) eqn:E; [| done].
  apply Qeq_bool_eq in E. unfold Qeq in E. simpl in E. lia.
Qed.

(** On positive numbers, substituting into a built expression meets no
    zero divisor. *)
Lemma subs_built (n : nat) (e : Expr) (nums : list Z) :
  built n e -> (n <= length nums)%nat -> Forall (fun x => 0 < x) nums ->
  is_Some (subs nums e).
Proof.
  induction 1 as [|n e Hb IH|n e Hb IH|n e Hb IH|n e Hb IH]; intros Hl Hf; simpl.
  - destruct (lookup_lt_is_Some_2 nums 0) as [x ->]; [lia | by eexists].
  - destruct IH as [q ->]; [lia | done |].
    destruct (lookup_lt_is_Some_2 nums n) as [x ->]; [lia | by eexists].
  - destruct IH as [q ->]; [lia | done |].
    destruct (lookup_lt_is_Some_2 nums n) as [x ->]; [lia | by eexists].
  - destruct IH as [q ->]; [lia | done |].
    destruct (lookup_lt_is_Some_2 nums n) as [x ->]; [lia | by eexists].
  - destruct IH as [q ->]; [lia | done |].
    destruct (lookup_lt_is_Some_2 nums n) as [x Hx]; [lia |]. rewrite Hx. simpl.
    rewrite Qeq_bool_inject_Z_nonzero; [by eexists |].
    pose proof (Forall_lookup_1 _ _ _ _ Hf Hx). simpl in *. lia.
Qed.

(** One turn of the loop under a validated configuration: it returns,
    takes no fallback arm, and keeps the numbers positive. *)
Lemma step_total (self : CountdownDataset) (i : nat) (st : LoopState) (g : rng) :
  validate (config self) = Ok tt ->
  built i (expr st) -> (i < length (numbers st))%nat ->
  Forall (fun x => 0 < x) (numbers st) ->
  Forall (fun a => is_fallback a = false) (arms st) ->
  exists st' g',
    step self i st g = Ok (st', g')
    /\ built (S i) (expr st')
    /\ length (numbers st') = length (numbers st)
    /\ Forall (fun x => 0 < x) (numbers st')
    /\ Forall (fun a => is_fallback a = false) (arms st')
    /\ length (arms st') = S (length (arms st)).
Proof.
  intros Hv Hb Hi Hpos Harm.
  assert (Hlen : forall a : arm, length (arms st ++ [a]) = S (length (arms st)))
    by (intros a; rewrite length_app; simpl; lia).
  apply countdown_validate_Ok in Hv as (_ & _ & _ & Hne & Hops).
  destruct (choice_total (operators (config self)) g Hne) as (op & g1 & E & Hop).
  destruct (lookup_lt_is_Some_2 _ _ Hi) as [ni Hni].
  assert (Hni0 : 0 < ni) by apply (Forall_lookup_1 _ _ _ _ Hpos Hni).
  unfold step. rewrite (bind_Ok _ _ _ _ _ E).
  destruct (allowed_operator_cases op (Hops op Hop)) as [->|[->|[->| ->]]]; simpl.
  - unfold bind, ret. rewrite Hni. eexists _, _. split; [done |]. simpl.
    repeat split; [by constructor | done | apply Forall_app; split; [done | by repeat constructor] | done].
  - unfold bind, ret. rewrite Hni. eexists _, _. split; [done |]. simpl.
    repeat split; [by constructor | done | apply Forall_app; split; [done | by repeat constructor] | done].
  - unfold bind, ret. rewrite Hni. eexists _, _. split; [done |]. simpl.
    repeat split; [by constructor | done | apply Forall_app; split; [done | by repeat constructor] | done].
  - rewrite Hni. destruct (Z.eqb_spec ni 0) as [|_]; [lia |]. simpl.
    set (remaining := filter (fun n => n <> 0) (drop i (numbers st))).
    assert (Hin : ni ∈ remaining).
    { apply list_elem_of_filter. split; [lia |].
      apply list_elem_of_lookup. exists 0%nat. rewrite lookup_drop.
      by rewrite Nat.add_0_r. }
    destruct (choice_total remaining g1) as (dv & g2 & E2 & Hdv).
    { intros Hnil. rewrite Hnil in Hin. by apply not_elem_of_nil in Hin. }
    destruct remaining as [|r0 rs] eqn:Er; [by apply not_elem_of_nil in Hin |].
    unfold bind at 1. unfold bind at 1. rewrite E2. unfold ret.
    rewrite list_lookup_insert_eq by done.
    eexists _, _. split; [done |]. simpl.
    assert (Hdv0 : 0 < dv).
    { rewrite <- Er in Hdv. apply list_elem_of_filter in Hdv as [_ Hdv].
      apply (subseteq_drop i) in Hdv.
      by apply (proj1 (Forall_forall _ _) Hpos). }
    repeat split.
    + by constructor.
    + apply length_insert.
    + by apply Forall_insert.
    + apply Forall_app; split; [done | by repeat constructor].
    + done.
Qed.

Lemma loop_total (self : CountdownDataset) (k i : nat) (st : LoopState) (g : rng) :
  validate (config self) = Ok tt ->
  built i (expr st) -> (i + k <= length (numbers st))%nat ->
  Forall (fun x => 0 < x) (numbers st) ->
  Forall (fun a => is_fallback a = false) (arms st) ->
  exists st' g',
    loop self (seq i k) st g = Ok (st', g')
    /\ built (i + k) (expr st')
    /\ length (numbers st') = length (numbers st)
    /\ Forall (fun x => 0 < x) (numbers st')
    /\ Forall (fun a => is_fallback a = false) (arms st')
    /\ length (arms st') = (length (arms st) + k)%nat.
Proof.
  intros Hv. revert i st g.
  induction k as [|k IH]; intros i st g Hb Hi Hpos Harm.
  - exists st, g. rewrite !Nat.add_0_r. by repeat split.
  - simpl seq. simpl loop.
    destruct (step_total self i st g Hv Hb) as (st1 & g1 & E & Hb1 & Hl1 & Hp1 & Ha1 & Hn1);
      [lia | done | done |].
    rewrite (bind_Ok _ _ _ _ _ E).
    destruct (IH (S i) st1 g1 Hb1) as (st2 & g2 & E2 & Hb2 & Hl2 & Hp2 & Ha2 & Hn2);
      [lia | done | done |].
    exists st2, g2. split; [done |].
    replace (i + S k)%nat with (S i + k)%nat by lia.
    repeat split; try done; lia.
Qed.

(** Under a validated configuration the expression is built without an
    exception from every generator state. *)
Lemma build_total (self : CountdownDataset) (g : rng) :
  validate (config self) = Ok tt ->
  exists st g',
    build self g = Ok (st, g')
    /\ built (length (numbers st)) (expr st)
    /\ Forall (fun x => 0 < x) (numbers st)
    /\ Forall (fun a => is_fallback a = false) (arms st)
    /\ S (length (arms st)) = length (numbers st).
Proof.
  intros Hv.
  destruct (countdown_validate_Ok _ Hv) as (Hn & Hval & _ & _ & _).
  destruct (randint_total (min_numbers (config self)) (max_numbers (config self)) g)
    as (n & g1 & E1 & Hn1); [lia |].
  destruct (draw_numbers_total (Z.to_nat n) (min_value (config self))
              (max_value (config self)) g1) as (xs & g2 & E2 & Hlen); [lia |].
  pose proof (draw_numbers_range _ _ _ _ _ _ E2) as Hr.
  assert (Hpos : Forall (fun x => 0 < x) xs).
  { eapply Forall_impl; [exact Hr |]. simpl. intros. lia. }
  unfold build. simpl. rewrite (bind_Ok _ _ _ _ _ E1), (bind_Ok _ _ _ _ _ E2).
  destruct xs as [|n0 xs']; [simpl in Hlen; lia |].
  set (st0 := {| expr := Sym 0; numbers := n0 :: xs'; used_nums := [n0]; arms := [] |}).
  destruct (loop_total self (Z.to_nat n - 1) 1 st0 g2 Hv)
    as (st & g3 & E3 & Hb & Hl & Hp & Ha & Hna); try done.
  { constructor. }
  { simpl in *. lia. }
  exists st, g3. split; [done |].
  simpl in Hl, Hna, Hlen. rewrite Hl.
  replace (S (length xs')) with (1 + (Z.to_nat n - 1))%nat by lia.
  repeat split; try done. lia.
Qed.


(** C10.  Under a validated configuration every number drawn is
    positive; from every generator state the loop of
    [_generate_expression] runs to its end with one arm per turn, none of
    them the fallback to subtraction or the fallback to addition; the
    numbers are still positive afterwards, and substituting them into
    the expression meets no division by zero. *)
Theorem division_fallbacks_unreachable (self : CountdownDataset) (g : rng) :
  validate (config self) = Ok tt ->
  (forall n g0 xs g1,
     draw_numbers n (min_value (config self)) (max_value (config self)) g0
     = Ok (xs, g1) -> Forall (fun x => 0 < x) xs)
  /\ exists st g',
       build self g = Ok (st, g')
       /\ Forall (fun x => 0 < x) (numbers st)
       /\ S (length (arms st)) = length (numbers st)
       /\ Forall (fun a => is_fallback a = false) (arms st)
       /\ is_Some (subs (numbers st) (expr st)).
Proof.
  intros Hv. split.
  - intros n g0 xs g1 E. apply draw_numbers_range in E.
    apply countdown_validate_Ok in Hv as (_ & Hval & _).
    eapply Forall_impl; [exact E |]. simpl. intros. lia.
  - destruct (build_total self g Hv) as (st & g' & E & Hb & Hp & Ha & Hl).
    exists st, g'. repeat split; try done.
    by eapply subs_built.
Qed.

End CountdownBuild.

Section CountdownSamples.
Import Countdown CountdownOps.
Context {R : PyRuntime}.

Lemma shuffle_from_total {A} (i : nat) (x : list A) (g : rng) :
  exists y g', Rng.shuffle_from i x g = Ok (y, g').
Proof.
  revert x g. induction i as [|i IH]; intros x g; simpl.
  - by exists x, g.
  - destruct (_randbelow _ g) as [j g1]. apply IH.
Qed.

Lemma getitem_of_expression_raise (depth : nat) (self : CountdownDataset)
    (idx : Z) (e : exn) :
  _generate_expression depth self (Random (ds_seed self + idx)) = Raise e ->
  __getitem__ depth self idx = (Raise e, self).
Proof.
  intros H. unfold __getitem__, generate. by rewrite (bind_Raise _ _ _ _ H).
Qed.

(** With a lower bound above its upper bound, a pass through
    [_generate_expression] raises or is rejected. *)
Lemma attempt_inconsistent (self : CountdownDataset) (g : rng) :
  inconsistent (config self) ->
  (exists e, attempt self g = Raise e) \/ (exists g', attempt self g = Ok (None, g')).
Proof.
  intros [Hn|[Hv|Ht]]; unfold attempt.
  - left. destruct (randint_empty _ _ g Hn) as [msg E].
    exists (ValueError msg). apply bind_Raise. unfold build. simpl.
    by apply bind_Raise.
  - left. unfold build. simpl.
    destruct (Rng.randint (min_numbers (config self)) (max_numbers (config self)) g)
      as [[n g1]|e] eqn:E1.
    + destruct (Z.to_nat n) as [|m] eqn:En.
      * exists IndexError. apply bind_Raise. rewrite (bind_Ok _ _ _ _ _ E1).
        by rewrite En.
      * destruct (randint_empty _ _ g1 Hv) as [msg E].
        exists (ValueError msg). apply bind_Raise. rewrite (bind_Ok _ _ _ _ _ E1).
        rewrite En. simpl. apply bind_Raise. by apply bind_Raise.
    + exists e. apply bind_Raise. by apply bind_Raise.
  - destruct (build self g) as [[st g']|e] eqn:E.
    + right. exists g'. rewrite (bind_Ok _ _ _ _ _ E). unfold ret, finish.
      destruct (subs _ _) as [q|]; [| done].
      destruct (Z.leb_spec (min_target (config self)) (int_of_Q q)),
               (Z.leb_spec (int_of_Q q) (max_target (config self))); try done.
      lia.
    + left. exists e. by apply bind_Raise.
Qed.

Lemma generate_expression_inconsistent (depth : nat) (self : CountdownDataset)
    (g : rng) :
  inconsistent (config self) ->
  exists e, _generate_expression depth self g = Raise e.
Proof.
  intros Hi. revert g. induction depth as [|depth IH]; intros g;
    rewrite generate_expression_unfold;
    destruct (attempt_inconsistent self g Hi) as [[e ->]|[g' ->]]; eauto.
Qed.

(** C8.  A configuration with a lower bound above its upper bound is
    rejected before any sample exists.  [LetterCountingDataset] and
    [ColorCubeRotationDataset] validate in their constructor, which
    raises [AssertionError] and returns no object; indexing a
    letter-counting object that holds such a configuration raises as
    well.  [CountdownConfig.validate] raises [AssertionError] for each
    of the three pairs, and a [CountdownDataset] object holding such a
    configuration returns no sample from [self[idx]] at any index and
    any recursion allowance. *)
Theorem inconsistent_bounds_no_sample :
  (forall text fresh cfg,
     LetterCounting.max_words cfg < LetterCounting.min_words cfg ->
     exists msg, LetterCounting.__init__ text fresh cfg = Raise (AssertionError msg))
  /\ (forall self idx,
        LetterCounting.max_words (LetterCounting.config self)
        < LetterCounting.min_words (LetterCounting.config self) ->
        exists e, LetterCounting.__getitem__ self idx = (Raise e, self))
  /\ (forall Obj (base_init : option Z -> Z -> result Obj) cfg,
        ColorCube.max_rotations cfg < ColorCube.min_rotations cfg ->
        exists msg, ColorCube.__init__ base_init cfg = Raise (AssertionError msg))
  /\ (forall cfg,
        inconsistent cfg ->
        (exists msg, validate cfg = Raise (AssertionError msg))
        /\ forall depth self idx,
             config self = cfg ->
             exists e, __getitem__ depth self idx = (Raise e, self)).
Proof.
  repeat split.
  - intros text fresh cfg H. unfold LetterCounting.__init__, LetterCounting.validate,
      py_assert, and_then.
    destruct (0 <? _); [| eauto].
    destruct (Z.leb_spec (LetterCounting.min_words cfg) (LetterCounting.max_words cfg));
      [lia | eauto].
  - intros self idx H. unfold LetterCounting.__getitem__, LetterCounting.generate.
    destruct (randint_empty _ _ (Random (LetterCounting.ds_seed self + idx)) H)
      as [msg E].
    rewrite (bind_Raise _ _ _ _ E). eauto.
  - intros Obj base_init cfg H. unfold ColorCube.__init__, ColorCube.validate,
      py_assert, and_then.
    destruct (0 <? _); [| eauto].
    destruct (Z.leb_spec (ColorCube.min_rotations cfg) (ColorCube.max_rotations cfg));
      [lia | eauto].
  - by apply validate_inconsistent.
  - intros depth self idx <-.
    destruct (generate_expression_inconsistent depth self
                (Random (ds_seed self + idx)) H) as [e E].
    exists e. by apply getitem_of_expression_raise.
Qed.


End CountdownSamples.

Section CountdownRetries.
Import Countdown CountdownOps.
Context {R : PyRuntime} {L : PyRuntimeLaws R}.

Lemma getitem_of_expression_ok (depth : nat) (self : CountdownDataset) (idx : Z)
    (e : string) (nums : list Z) (t : Z) (g1 : rng) :
  _prompt_templates self <> [] ->
  _generate_expression depth self (Random (ds_seed self + idx)) = Ok ((e, nums, t), g1) ->
  exists s,
    __getitem__ depth self idx = (Ok s, self)
    /\ answer s = e /\ md_expression (metadata s) = e /\ md_target (metadata s) = t.
Proof.
  intros Ht E. unfold __getitem__, generate. rewrite (bind_Ok _ _ _ _ _ E).
  assert (exists y g2,
            (if shuffle (config self) then Rng.shuffle nums else ret nums) g1
            = Ok (y, g2)) as (y & g2 & E2).
  { destruct (shuffle (config self)); [apply shuffle_from_total | by eexists _, _]. }
  rewrite (bind_Ok _ _ _ _ _ E2).
  destruct (choice_total (_prompt_templates self) g2 Ht) as (tpl & g3 & E3 & _).
  rewrite (bind_Ok _ _ _ _ _ E3). unfold ret. by eexists.
Qed.


(** *** Configurations whose draws are forced *)

Lemma draw_numbers_point (n : nat) (a : Z) (g : rng) :
  exists g', draw_numbers n a a g = Ok (repeat a n, g').
Proof.
  revert g. induction n as [|n IH]; intros g; simpl.
  - by exists g.
  - destruct (randint_point a g) as [g1 E1]. rewrite (bind_Ok _ _ _ _ _ E1).
    destruct (IH g1) as [g2 E2]. rewrite (bind_Ok _ _ _ _ _ E2). by exists g2.
Qed.

(** With ["+"] as the only operator the loop adds the symbols and leaves
    the numbers alone. *)
Lemma loop_plus (self : CountdownDataset) (indices : list nat) (st : LoopState)
    (g : rng) :
  operators (config self) = ["+"] ->
  Forall (fun i => (i < length (numbers st))%nat) indices ->
  exists st' g',
    loop self indices st g = Ok (st', g')
    /\ expr st' = foldl (fun e i => Add e (Sym i)) (expr st) indices
    /\ numbers st' = numbers st.
Proof.
  intros Hop. revert st g. induction indices as [|i indices IH]; intros st g Hi.
  - by exists st, g.
  - apply Forall_cons in Hi as [Hi His]. simpl loop.
    destruct (choice_single "+" g) as [g1 E1].
    destruct (lookup_lt_is_Some_2 _ _ Hi) as [ni Hni].
    assert (Es : step self i st g
                 = Ok ({| expr := Add (expr st) (Sym i); numbers := numbers st;
                          used_nums := used_nums st ++ [ni];
                          arms := arms st ++ [ArmAdd] |}, g1)).
    { unfold step. rewrite Hop, (bind_Ok _ _ _ _ _ E1). simpl.
      unfold bind, ret. by rewrite Hni. }
    rewrite (bind_Ok _ _ _ _ _ Es).
    destruct (IH {| expr := Add (expr st) (Sym i); numbers := numbers st;
                    used_nums := used_nums st ++ [ni];
                    arms := arms st ++ [ArmAdd] |} g1 His)
      as (st' & g' & E & He & Hn).
    by exists st', g'.
Qed.

Lemma finish_ext (self : CountdownDataset) (st1 st2 : LoopState) :
  expr st1 = expr st2 -> numbers st1 = numbers st2 ->
  finish self st1 = finish self st2.
Proof. unfold finish. by intros -> ->. Qed.

(** A pass with [n] numbers all equal to [a] and ["+"] as the only
    operator. *)
Lemma attempt_plus_point (self : CountdownDataset) (n : nat) (a : Z) (g : rng) :
  operators (config self) = ["+"] ->
  min_numbers (config self) = Z.of_nat (S n) ->
  max_numbers (config self) = Z.of_nat (S n) ->
  min_value (config self) = a -> max_value (config self) = a ->
  exists g',
    attempt self g
    = Ok (finish self {| expr := foldl (fun e i => Add e (Sym i)) (Sym 0) (seq 1 n);
                         numbers := repeat a (S n);
                         used_nums := []; arms := [] |}, g').
Proof.
  intros Hop Hmin Hmax Hlo Hhi.
  destruct (randint_point (Z.of_nat (S n)) g) as [g1 E1].
  destruct (draw_numbers_point (S n) a g1) as [g2 E2].
  destruct (loop_plus self (seq 1 n)
              {| expr := Sym 0; numbers := a :: repeat a n;
                 used_nums := [a]; arms := [] |} g2 Hop)
    as (st' & g3 & E3 & He & Hn).
  { apply Forall_forall. intros i Hin. apply elem_of_seq in Hin.
    simpl. rewrite repeat_length. lia. }
  assert (Eb : build self g = Ok (st', g3)).
  { unfold build. cbv zeta. rewrite Hmin, Hmax, Hlo, Hhi.
    rewrite (bind_Ok _ _ _ _ _ E1). rewrite Nat2Z.id.
    rewrite (bind_Ok _ _ _ _ _ E2). simpl repeat.
    replace (S n - 1)%nat with n by lia. exact E3. }
  unfold attempt. rewrite (bind_Ok _ _ _ _ _ Eb). unfold ret.
  exists g3. do 2 f_equal. by apply finish_ext.
Qed.

End CountdownRetries.

Section CountdownForced.
Import Countdown CountdownOps Examples.
Context {R : PyRuntime} {L : PyRuntimeLaws R}.




(** With eleven numbers equal to 1 and ["+"] alone, every sample has
    target 11, and in its text the replacement of [x1] has also rewritten
    the first two characters of [x10]: the text ends in [10], and its
    value is 20. *)
Lemma eleven_getitem (depth : nat) (idx : Z) :
  validate countdown_eleven = Ok tt
  /\ exists s,
       __getitem__ depth countdown_eleven_ds idx = (Ok s, countdown_eleven_ds)
       /\ answer s = "1 + 1 + 1 + 1 + 1 + 1 + 1 + 1 + 1 + 1 + 10"
       /\ md_target (metadata s) = 11
       /\ eval_text (answer s) = Some (inject_Z 20).
Proof.
  split; [reflexivity |].
  destruct (attempt_plus_point countdown_eleven_ds 10 1
              (Random (ds_seed countdown_eleven_ds + idx))) as [g' E];
    try reflexivity.
  assert (E' : attempt countdown_eleven_ds (Random (ds_seed countdown_eleven_ds + idx))
               = Ok (Some ("1 + 1 + 1 + 1 + 1 + 1 + 1 + 1 + 1 + 1 + 10",
                           repeat 1 11, 11), g')).
  { rewrite E. do 2 f_equal. }
  pose proof (generate_expression_accept 0 depth countdown_eleven_ds _ _ _ _
                eq_refl E' ltac:(lia)) as Hg.
  destruct (getitem_of_expression_ok depth countdown_eleven_ds idx _ _ _ _
              ltac:(done) Hg) as (s & Hs & Ha & _ & Ht).
  exists s. repeat split; try done. rewrite Ha. by vm_compute.
Qed.

End CountdownForced.

Section CountdownExamples.
Import Countdown CountdownOps Examples.

#[local] Existing Instance countdown_runtime.



Lemma division_fallbacks_unreachable_witness :
  (forall n g0 xs g1,
     draw_numbers n (min_value (config countdown_ds)) (max_value (config countdown_ds)) g0
     = Ok (xs, g1) -> Forall (fun x => 0 < x) xs)
  /\ exists st g',
       build countdown_ds (Random 4) = Ok (st, g')
       /\ Forall (fun x => 0 < x) (numbers st)
       /\ S (length (arms st)) = length (numbers st)
       /\ Forall (fun a => is_fallback a = false) (arms st)
       /\ is_Some (subs (numbers st) (expr st)).
Proof.
  apply (@division_fallbacks_unreachable countdown_runtime
           (TapeRuntime_laws countdown_tape) countdown_ds (Random 4)).
  reflexivity.
Defined.

(** C1, at [CountdownDataset(CountdownConfig(seed=4))[0]] (every other
    field at its default).  The numbers drawn are 39, 14, 93, 51 and the
    operators [/], [+], [+]; the number chosen as divisor is 14, which
    does not divide 39.  The target is [int(2055/14) = 146], within the
    bounds, and the answer is the text [39/14 + 93 + 51], whose value is
    2055/14 and not 146. *)
Theorem getitem_answer_differs_from_target (depth : nat) :
  validate (config countdown_ds) = Ok tt
  /\ exists s,
       __getitem__ depth countdown_ds 0 = (Ok s, countdown_ds)
       /\ answer s = "39/14 + 93 + 51"
       /\ md_numbers (metadata s) = [51; 93; 14; 39]
       /\ md_target (metadata s) = 146
       /\ min_target (config countdown_ds) <= md_target (metadata s)
          <= max_target (config countdown_ds)
       /\ eval_text (answer s) = Some (2055 # 14)
       /\ ~ (2055 # 14 == inject_Z (md_target (metadata s)))%Q.
Proof.
  split; [reflexivity |].
  eexists. split; [destruct depth; by vm_compute |].
  repeat split; try by vm_compute. 
Qed.

End CountdownExamples.

Section ValidationExamples.
Import Examples.

#[local] Existing Instance countdown_runtime.

Lemma inconsistent_bounds_no_sample_witness :
  (exists msg, LetterCounting.__init__ lc_text 0 lc_reversed = Raise (AssertionError msg))
  /\ (exists msg, ColorCube.__init__ (fun _ _ => Ok tt) cube_reversed
                  = Raise (AssertionError msg))
  /\ (exists msg, Countdown.validate countdown_reversed = Raise (AssertionError msg))
  /\ forall depth idx,
       exists e,
         Countdown.__getitem__ depth
           {| Countdown.config := countdown_reversed; Countdown.ds_seed := 0;
              Countdown._prompt_templates := Countdown.prompt_templates |} idx
         = (Raise e,
            {| Countdown.config := countdown_reversed; Countdown.ds_seed := 0;
               Countdown._prompt_templates := Countdown.prompt_templates |}).
Proof.
  destruct (@inconsistent_bounds_no_sample countdown_runtime) as (H1 & _ & H3 & H4).
  split; [apply H1; simpl; lia |].
  split; [apply H3; simpl; lia |].
  destruct (H4 countdown_reversed) as [Hv Hg].
  { left. simpl. lia. }
  split; [exact Hv |].
  intros depth idx. by apply Hg.
Defined.

End ValidationExamples.

(** * Further properties *)

(** ** Rotations of the cube *)

Ltac rotation_cases c :=
  unfold ColorCube._rotate_to_top, ColorCube.rotate_front_to_top,
    ColorCube.rotate_right_to_top, ColorCube.rotate_back_to_top,
    ColorCube.rotate_left_to_top, ColorCube.rotate_bottom_to_top,
    ColorCube.assign_from;
  destruct (ColorCube.colors c !! ColorCube.TOP) eqn:?,
    (ColorCube.colors c !! ColorCube.RIGHT) eqn:?,
    (ColorCube.colors c !! ColorCube.FRONT) eqn:?,
    (ColorCube.colors c !! ColorCube.LEFT) eqn:?,
    (ColorCube.colors c !! ColorCube.BACK) eqn:?,
    (ColorCube.colors c !! ColorCube.BOTTOM) eqn:?.

Section RotationFacts.
Import ColorCube ColorCubeDataset Shapes.

Lemma came_from_opposite (s t : Side) :
  came_from s (came_from (opposite s) t) = t
  /\ came_from (opposite s) (came_from s t) = t.
Proof. by destruct s, t. Qed.

(** After a rotation that returned, each face holds what the face
    [came_from] names held before. *)
Lemma rotate_to_top_lookup (c c' : Cube) (s : Side) :
  _rotate_to_top c s = (Ok tt, c') ->
  forall t, colors c' !! t = colors c !! came_from s t.
Proof.
  intros H t. destruct s; revert H; rotation_cases c; intros [= <-];
    destruct t; simpl; by simplify_map_eq.
Qed.

(** A rotation returns exactly when every face it moves is there. *)
Lemma rotate_to_top_ok (c : Cube) (s : Side) :
  (exists c', _rotate_to_top c s = (Ok tt, c'))
  <-> forall t, came_from s t <> t -> is_Some (colors c !! t).
Proof.
  split.
  - intros [c' H] t Ht. destruct s; revert H; rotation_cases c; intros [= <-];
      destruct t; simpl in *; try done; by eexists.
  - intros H.
    pose proof (H TOP) as Ht. pose proof (H RIGHT) as Hr.
    pose proof (H FRONT) as Hf. pose proof (H LEFT) as Hl.
    pose proof (H BACK) as Hk. pose proof (H BOTTOM) as Hb.
    destruct s; simpl in *; rotation_cases c; try (by eexists);
      exfalso;
      repeat match goal with
             | Hx : _ -> is_Some None |- _ =>
                 first [ (destruct Hx as [? ?]; [done | done]) | clear Hx ]
             end.
Qed.

End RotationFacts.

Section RotationLaws.
Import ColorCube ColorCubeDataset Shapes.

Lemma cube_eq (a b : Cube) :
  (forall t, colors a !! t = colors b !! t) -> a = b.
Proof. destruct a, b. simpl. intros H. f_equal. by apply map_eq. Qed.

Lemma rotate_then (c c1 : Cube) (s s' : Side) :
  _rotate_to_top c s = (Ok tt, c1) ->
  (forall t, came_from s' t <> t -> came_from s (came_from s t) <> came_from s t) ->
  exists c2, _rotate_to_top c1 s' = (Ok tt, c2).
Proof.
  intros H Hm. apply rotate_to_top_ok. intros t Ht.
  rewrite (rotate_to_top_lookup c c1 s H).
  eapply rotate_to_top_ok; [by eexists | by apply Hm].
Qed.

(** X1.  A rotation that returns only rearranges the cube: every face
    afterwards holds what the face [came_from] names held before, every
    face before is found afterwards on the face the opposite rotation
    names, and a cube with all six faces keeps all six. *)
Theorem rotate_to_top_rearranges (c c' : Cube) (s : Side) :
  _rotate_to_top c s = (Ok tt, c') ->
  (forall t, colors c' !! t = colors c !! came_from s t)
  /\ (forall t, colors c !! t = colors c' !! came_from (opposite s) t)
  /\ (full c -> full c').
Proof.
  intros H. pose proof (rotate_to_top_lookup c c' s H) as Hl.
  repeat split.
  - done.
  - intros t. rewrite Hl. by rewrite (proj1 (came_from_opposite s t)).
  - intros Hf t. rewrite Hl. apply Hf.
Qed.

Lemma rotate_to_top_rearranges_witness :
  (forall t, colors Examples.cube_after !! t
             = colors Examples.cube_before !! came_from FRONT t)
  /\ (forall t, colors Examples.cube_before !! t
                = colors Examples.cube_after !! came_from (opposite FRONT) t)
  /\ (full Examples.cube_before -> full Examples.cube_after).
Proof.
  apply (rotate_to_top_rearranges Examples.cube_before Examples.cube_after FRONT).
  by vm_compute.
Defined.

(** X2.  Rotating the opposite side to the top undoes a rotation: BACK
    undoes FRONT and FRONT undoes BACK, LEFT and RIGHT undo each other,
    and BOTTOM undoes itself; the cube is the one before, as a
    dictionary. *)
Theorem rotate_to_top_undo (c c1 : Cube) (s : Side) :
  _rotate_to_top c s = (Ok tt, c1) ->
  _rotate_to_top c1 (opposite s) = (Ok tt, c).
Proof.
  intros H.
  destruct (rotate_then c c1 s (opposite s) H) as [c2 H2].
  { intros t. by destruct s, t. }
  rewrite H2. do 2 f_equal. apply cube_eq. intros t.
  rewrite (rotate_to_top_lookup _ _ _ H2), (rotate_to_top_lookup _ _ _ H).
  by rewrite (proj1 (came_from_opposite s t)).
Qed.

Lemma rotate_to_top_undo_witness :
  _rotate_to_top Examples.cube_after (opposite FRONT) = (Ok tt, Examples.cube_before).
Proof.
  apply (rotate_to_top_undo Examples.cube_before Examples.cube_after FRONT).
  by vm_compute.
Defined.

(** X3.  How rotations compose: the same side rotated to the top four
    times in a row gives the cube back, and FRONT twice, like BACK
    twice, is BOTTOM once. *)
Theorem replay_compositions (c c1 : Cube) (s : Side) :
  _rotate_to_top c s = (Ok tt, c1) ->
  replay [s; s; s; s] c = (Ok tt, c)
  /\ (s = FRONT ->
      replay [FRONT; FRONT] c = _rotate_to_top c BOTTOM
      /\ replay [BACK; BACK] c = _rotate_to_top c BOTTOM).
Proof.
  intros H. split.
  - destruct (rotate_then c c1 s s H) as [c2 H2]; [intros t; by destruct s, t |].
    destruct (rotate_then c1 c2 s s H2) as [c3 H3]; [intros t; by destruct s, t |].
    destruct (rotate_then c2 c3 s s H3) as [c4 H4]; [intros t; by destruct s, t |].
    cbn [replay]. rewrite H, H2, H3, H4. do 2 f_equal. apply cube_eq. intros t.
    rewrite (rotate_to_top_lookup _ _ _ H4), (rotate_to_top_lookup _ _ _ H3),
            (rotate_to_top_lookup _ _ _ H2), (rotate_to_top_lookup _ _ _ H).
    f_equal. by destruct s, t.
  - intros ->.
    destruct (rotate_then c c1 FRONT FRONT H) as [c2 H2]; [intros t; by destruct t |].
    destruct (proj2 (rotate_to_top_ok c BACK)) as [b1 Hb1].
    { intros t Ht. eapply rotate_to_top_ok; [by eexists |]. by destruct t. }
    destruct (rotate_then c b1 BACK BACK Hb1) as [b2 Hb2]; [intros t; by destruct t |].
    destruct (proj2 (rotate_to_top_ok c BOTTOM)) as [d Hd].
    { intros t Ht. eapply rotate_to_top_ok; [by eexists |]. by destruct t. }
    cbn [replay]. rewrite H, H2, Hb1, Hb2, Hd.
    split; do 2 f_equal; apply cube_eq; intros t.
    + rewrite (rotate_to_top_lookup _ _ _ H2), (rotate_to_top_lookup _ _ _ H),
              (rotate_to_top_lookup _ _ _ Hd).
      f_equal. by destruct t.
    + rewrite (rotate_to_top_lookup _ _ _ Hb2), (rotate_to_top_lookup _ _ _ Hb1),
              (rotate_to_top_lookup _ _ _ Hd).
      f_equal. by destruct t.
Qed.

Lemma replay_compositions_witness :
  replay [FRONT; FRONT; FRONT; FRONT] Examples.cube_before
  = (Ok tt, Examples.cube_before)
  /\ (FRONT = FRONT ->
      replay [FRONT; FRONT] Examples.cube_before
      = _rotate_to_top Examples.cube_before BOTTOM
      /\ replay [BACK; BACK] Examples.cube_before
         = _rotate_to_top Examples.cube_before BOTTOM).
Proof.
  apply (replay_compositions Examples.cube_before Examples.cube_after FRONT).
  by vm_compute.
Defined.

(** X4.  A rotation that raises, raises [KeyError], because a face it
    moves is missing; the faces it does not move are as before, but the
    faces assigned before the missing one was read keep their new
    content: the cube can be left half rotated. *)
Theorem rotate_to_top_failure (c c' : Cube) (s : Side) (e : exn) :
  _rotate_to_top c s = (Raise e, c') ->
  e = KeyError
  /\ (exists t, came_from s t <> t /\ colors c !! t = None)
  /\ (forall t, came_from s t = t -> colors c' !! t = colors c !! t)
  /\ (s = FRONT -> forall f, colors c !! FRONT = Some f ->
      colors c' !! TOP = Some f).
Proof.
  intros H. destruct s; revert H; rotation_cases c; intros [= <- <-];
    (split; [done |]);
    (split; [first [ by exists TOP | by exists RIGHT | by exists FRONT
                   | by exists LEFT | by exists BACK | by exists BOTTOM ] |]);
    (split; [intros t Ht; destruct t; simpl in *; try done; by simplify_map_eq |]);
    try done; intros _ f' [= <-]; simpl; by simplify_map_eq.
Qed.

Lemma rotate_to_top_failure_witness :
  KeyError = KeyError
  /\ (exists t, came_from FRONT t <> t /\ colors Examples.cube_no_bottom !! t = None)
  /\ (forall t, came_from FRONT t = t ->
        colors (mkCube (<[TOP := BLUE]> (colors Examples.cube_no_bottom))) !! t
        = colors Examples.cube_no_bottom !! t)
  /\ (FRONT = FRONT -> forall f, colors Examples.cube_no_bottom !! FRONT = Some f ->
      colors (mkCube (<[TOP := BLUE]> (colors Examples.cube_no_bottom))) !! TOP = Some f).
Proof.
  apply (rotate_to_top_failure Examples.cube_no_bottom
           (mkCube (<[TOP := BLUE]> (colors Examples.cube_no_bottom))) FRONT KeyError).
  by vm_compute.
Defined.

End RotationLaws.

(** ** Shuffling *)

Section ShuffleFacts.
Context {R : PyRuntime}.

Lemma swap_Permutation {A} (i j : nat) (x : list A) : Rng.swap i j x ≡ₚ x.
Proof.
  unfold Rng.swap.
  destruct (x !! i) as [xi|] eqn:Hi; [| done].
  destruct (x !! j) as [xj|] eqn:Hj; [| done].
  pose proof (lookup_lt_Some _ _ _ Hi) as Hil.
  pose proof (lookup_lt_Some _ _ _ Hj) as Hjl.
  apply Permutation_inj. split; [by rewrite !length_insert |].
  exists (fun k => if decide (k = i) then j else if decide (k = j) then i else k).
  split.
  - intros a b. repeat case_decide; intros; subst; congruence.
  - intros k. repeat case_decide; subst.
    + destruct (decide (i = j)) as [->|Hne].
      * rewrite list_lookup_insert_eq by (by rewrite length_insert). congruence.
      * rewrite list_lookup_insert_ne by done.
        rewrite list_lookup_insert_eq by done. done.
    + rewrite list_lookup_insert_eq by (by rewrite length_insert). done.
    + by rewrite !list_lookup_insert_ne by done.
Qed.

Lemma shuffle_from_Permutation {A} (i : nat) (x y : list A) (g g' : rng) :
  Rng.shuffle_from i x g = Ok (y, g') -> y ≡ₚ x.
Proof.
  revert x g. induction i as [|i IH]; intros x g; simpl.
  - unfold ret. by intros [= <- <-].
  - destruct (_randbelow _ g) as [j g1]. intros H. apply IH in H.
    by rewrite H, swap_Permutation.
Qed.

Lemma shuffle_Permutation {A} (x y : list A) (g g' : rng) :
  Rng.shuffle x g = Ok (y, g') -> y ≡ₚ x.
Proof. apply shuffle_from_Permutation. Qed.

End ShuffleFacts.

(** ** The cube dataset *)

Section CubeDatasetFacts.
Import ColorCube ColorCubeDataset Shapes.
Context {R : PyRuntime} {L : PyRuntimeLaws R}.

Lemma cube_validate_Ok (cfg : ColorCubeRotationConfig) :
  validate cfg = Ok tt <-> 0 < min_rotations cfg <= max_rotations cfg.
Proof.
  unfold validate, py_assert, and_then.
  destruct (Z.ltb_spec 0 (min_rotations cfg)),
           (Z.leb_spec (min_rotations cfg) (max_rotations cfg));
    split; (done || lia).
Qed.

Lemma generate_cube_spec (g : rng) :
  exists cube g',
    _generate_cube g = Ok (cube, g')
    /\ full cube
    /\ map (fun t => colors cube !! t) all_sides ≡ₚ map Some all_colors
    /\ (items (colors cube)).*1 = all_sides.
Proof.
  unfold _generate_cube.
  destruct (shuffle_from_total (length all_colors - 1) all_colors g) as (p & g' & E).
  pose proof (shuffle_from_Permutation _ _ _ _ _ E) as Hp.
  change (Rng.shuffle_from (length all_colors - 1) all_colors) with (Rng.shuffle all_colors) in E.
  rewrite (bind_Ok _ _ _ _ _ E). unfold ret. eexists _, _. split; [done |].
  pose proof (Permutation_length Hp) as Hl.
  destruct p as [|c1 [|c2 [|c3 [|c4 [|c5 [|c6 [|c7 p]]]]]]]; try done.
  simpl colors. split; [| split].
  - intros []; by vm_compute; eexists.
  - match goal with
    | |- ?l ≡ₚ _ =>
        assert (Hm : l = map Some [c1; c2; c3; c4; c5; c6]) by (by vm_compute)
    end.
    rewrite Hm. by apply Permutation_map.
  - by vm_compute.
Qed.

End CubeDatasetFacts.

Section CubeDatasetSample.
Import ColorCube ColorCubeDataset Shapes.
Context {R : PyRuntime} {L : PyRuntimeLaws R}.

Lemma rotate_full (cube : Cube) (s : Side) :
  full cube -> exists cube', _rotate_to_top cube s = (Ok tt, cube') /\ full cube'.
Proof.
  intros Hf.
  destruct (proj2 (rotate_to_top_ok cube s)) as [cube' H]; [intros t _; apply Hf |].
  exists cube'. split; [done |].
  intros t. rewrite (rotate_to_top_lookup _ _ _ H). apply Hf.
Qed.

Lemma rotate_loop_total (n : nat) (rots : list Side) (cube : Cube) (g : rng) :
  full cube ->
  exists rots' cube' g',
    rotate_loop n rots cube g = Ok (((rots ++ rots')%list, cube'), g')
    /\ (TOP ∉ rots') /\ (length rots' <= n)%nat
    /\ replay rots' cube = (Ok tt, cube') /\ full cube'.
Proof.
  revert rots cube g. induction n as [|n IH]; intros rots cube g Hf.
  - exists [], cube, g. rewrite app_nil_r. repeat split; try done.
    apply not_elem_of_nil.
  - simpl rotate_loop.
    destruct (choice_total all_sides g) as (s & g1 & E & _); [done |].
    rewrite (bind_Ok _ _ _ _ _ E). case_bool_decide as Hs.
    + destruct (rotate_full cube s Hf) as (cube1 & Hr & Hf1). rewrite Hr.
      destruct (IH (rots ++ [s])%list cube1 g1 Hf1) as (rots' & cube' & g' & E' & Ht & Hl & Hp & Hf').
      exists (s :: rots'), cube', g'. rewrite <- app_assoc in E'.
      repeat split; try done.
      * intros Hin. apply elem_of_cons in Hin as [Heq|Hin]; [congruence | done].
      * simpl. lia.
      * simpl. by rewrite Hr.
    + destruct (IH rots cube g1 Hf) as (rots' & cube' & g' & E' & Ht & Hl & Hp & Hf').
      exists rots', cube', g'. repeat split; try done. lia.
Qed.

Lemma generate_story_full (cube : Cube) (rots : list Side) (t : Side) :
  full cube -> exists story, _generate_story (colors cube) rots t = Ok story.
Proof.
  intros Hf. unfold _generate_story, state_lines, all_sides. simpl.
  destruct (Hf TOP) as [? ->], (Hf RIGHT) as [? ->], (Hf FRONT) as [? ->],
           (Hf LEFT) as [? ->], (Hf BACK) as [? ->], (Hf BOTTOM) as [? ->].
  by eexists.
Qed.

(** X5.  Under a validated configuration [dataset[idx]] returns a sample
    for every index, and its metadata reproduces its answer: the initial
    state gives the six faces the six colours, each once; the recorded
    rotations never name the top, and there are at most [num_rotations]
    of them, a number within the configured bounds; and replaying the
    recorded rotations on the initial state leaves the answer on the
    target side. *)
Theorem cube_getitem_replayable (self : ColorCubeRotationDataset) (idx : Z) :
  validate (config self) = Ok tt ->
  exists s cube0 rots target cube1,
    __getitem__ self idx = (Ok s, self)
    /\ map (fun t => colors cube0 !! t) all_sides ≡ₚ map Some all_colors
    /\ initial_state (metadata s)
       = map (fun kv => (Side_value (fst kv), Color_value (snd kv)))
             (items (colors cube0))
    /\ (items (colors cube0)).*1 = all_sides
    /\ rotations (metadata s) = map Side_value rots
    /\ target_side (metadata s) = Side_value target
    /\ (TOP ∉ rots)
    /\ Z.of_nat (length rots) <= num_rotations (metadata s)
    /\ min_rotations (config self) <= num_rotations (metadata s)
       <= max_rotations (config self)
    /\ replay rots cube0 = (Ok tt, cube1)
    /\ colors cube1 !! target = Some (answer s).
Proof.
  intros Hv. apply cube_validate_Ok in Hv.
  destruct (generate_cube_spec (Random (ds_seed self + idx)))
    as (cube0 & g1 & E1 & Hf0 & Hperm & Hitems).
  destruct (randint_total (min_rotations (config self)) (max_rotations (config self)) g1)
    as (n & g2 & E2 & Hn); [lia |].
  destruct (rotate_loop_total (Z.to_nat n) [] cube0 g2 Hf0)
    as (rots & cube1 & g3 & E3 & Htop & Hlen & Hrep & Hf1).
  destruct (choice_total all_sides g3) as (target & g4 & E4 & _); [done |].
  destruct (generate_story_full cube0 rots target Hf0) as [story Es].
  destruct (Hf1 target) as [ans Hans].
  exists {| question := story; answer := ans;
            metadata := {| initial_state :=
                             map (fun kv => (Side_value (fst kv), Color_value (snd kv)))
                                 (items (colors cube0));
                           rotations := map Side_value rots;
                           target_side := Side_value target;
                           num_rotations := n |} |}, cube0, rots, target, cube1.
  split.
  { unfold __getitem__, generate.
    rewrite (bind_Ok _ _ _ _ _ E1), (bind_Ok _ _ _ _ _ E2).
    simpl in E3. rewrite (bind_Ok _ _ _ _ _ E3), (bind_Ok _ _ _ _ _ E4).
    unfold bind at 1. unfold lift. rewrite Es, Hans. done. }
  simpl. repeat split; try done; lia.
Qed.

End CubeDatasetSample.

Section CubeDatasetExamples.
Import ColorCube ColorCubeDataset Shapes Examples.

#[local] Existing Instance cube_runtime.

Lemma cube_getitem_replayable_witness :
  exists s cube0 rots target cube1,
    __getitem__ cube_ds 0 = (Ok s, cube_ds)
    /\ map (fun t => colors cube0 !! t) all_sides ≡ₚ map Some all_colors
    /\ initial_state (metadata s)
       = map (fun kv => (Side_value (fst kv), Color_value (snd kv)))
             (items (colors cube0))
    /\ (items (colors cube0)).*1 = all_sides
    /\ rotations (metadata s) = map Side_value rots
    /\ target_side (metadata s) = Side_value target
    /\ (TOP ∉ rots)
    /\ Z.of_nat (length rots) <= num_rotations (metadata s)
    /\ min_rotations (config cube_ds) <= num_rotations (metadata s)
       <= max_rotations (config cube_ds)
    /\ replay rots cube0 = (Ok tt, cube1)
    /\ colors cube1 !! target = Some (answer s).
Proof.
  apply (@cube_getitem_replayable cube_runtime (TapeRuntime_laws cube_tape) cube_ds 0).
  reflexivity.
Defined.

End CubeDatasetExamples.

(** ** The registry under sequences of calls *)

Section RegistryFacts.
Import Factory FactoryOps.

(** X6.  [register_dataset] has two outcomes.  It returns, having bound
    the name to the pair, exactly when the name was free, the dataset
    class derives from [ProceduralDataset] and the configuration class
    is a dataclass; in every other case it raises [ValueError] and the
    registry is exactly as before. *)
Theorem register_dataset_outcome (name : string) (d c : PyClass)
    (reg reg' : gmap string (PyClass * PyClass)) (r : result unit) :
  register_dataset name d c reg = (r, reg') ->
  (r = Ok tt /\ reg' = <[name := (d, c)]> reg
   /\ reg !! name = None
   /\ issubclass d ProceduralDataset = true /\ is_dataclass c = true)
  \/ ((exists msg, r = Raise (ValueError msg)) /\ reg' = reg
      /\ (is_Some (reg !! name)
          \/ issubclass d ProceduralDataset = false
          \/ is_dataclass c = false)).
Proof.
  unfold register_dataset.
  destruct (reg !! name) as [p|] eqn:Hn.
  { intros [= <- <-]. right. repeat split; eauto. }
  destruct (issubclass d ProceduralDataset) eqn:Hs; simpl.
  - destruct (is_dataclass c) eqn:Hd; simpl; intros [= <- <-].
    + by left.
    + right. repeat split; eauto.
  - intros [= <- <-]. right. repeat split; eauto.
Qed.

Lemma register_dataset_outcome_witness :
  (Ok tt = Ok tt
   /\ Examples.registry1
      = <["countdown" := (Examples.CountdownDataset_cls, Examples.CountdownConfig_cls)]> ∅
   /\ (∅ : gmap string (PyClass * PyClass)) !! "countdown" = None
   /\ issubclass Examples.CountdownDataset_cls ProceduralDataset = true
   /\ is_dataclass Examples.CountdownConfig_cls = true)
  \/ ((exists msg, Ok tt = Raise (ValueError msg)) /\ Examples.registry1 = ∅
      /\ (is_Some ((∅ : gmap string (PyClass * PyClass)) !! "countdown")
          \/ issubclass Examples.CountdownDataset_cls ProceduralDataset = false
          \/ is_dataclass Examples.CountdownConfig_cls = false)).
Proof.
  apply (register_dataset_outcome "countdown" Examples.CountdownDataset_cls
           Examples.CountdownConfig_cls ∅ Examples.registry1 (Ok tt)).
  reflexivity.
Defined.

Lemma register_dataset_keeps (name name' : string) (d c : PyClass)
    (reg : gmap string (PyClass * PyClass)) (p : PyClass * PyClass) :
  reg !! name' = Some p ->
  snd (register_dataset name d c reg) !! name' = Some p.
Proof.
  intros Hp. unfold register_dataset.
  destruct (reg !! name) as [q|] eqn:Hn; [done |].
  destruct (negb (issubclass d ProceduralDataset)); [done |].
  destruct (negb (is_dataclass c)); [done |]. simpl.
  rewrite lookup_insert_ne; [done |]. intros ->. congruence.
Qed.

Lemma register_all_keeps (calls : list registration)
    (reg : gmap string (PyClass * PyClass)) (name : string) (p : PyClass * PyClass) :
  reg !! name = Some p -> register_all calls reg !! name = Some p.
Proof.
  revert reg. induction calls as [|call calls IH]; intros reg Hp; [done |].
  unfold register_all in *. simpl. apply IH. by apply register_dataset_keeps.
Qed.

(** X7.  Across any sequence of [register_dataset] calls, returning or
    raising, a name that is bound keeps the pair it is bound to, and
    [create_dataset] for that name answers as it did before the calls. *)
Theorem register_all_first_wins (calls : list registration)
    (reg : gmap string (PyClass * PyClass)) (name : string) (p : PyClass * PyClass) :
  reg !! name = Some p ->
  register_all calls reg !! name = Some p
  /\ forall config seed size,
       create_dataset name config seed size (register_all calls reg)
       = create_dataset name config seed size reg.
Proof.
  intros Hp. pose proof (register_all_keeps calls reg name p Hp) as Hk.
  split; [done |]. intros config seed size. unfold create_dataset.
  by rewrite Hk, Hp.
Qed.

Lemma register_all_first_wins_witness :
  register_all Examples.registrations Examples.registry1 !! "countdown"
  = Some (Examples.CountdownDataset_cls, Examples.CountdownConfig_cls)
  /\ forall config seed size,
       create_dataset "countdown" config seed size
         (register_all Examples.registrations Examples.registry1)
       = create_dataset "countdown" config seed size Examples.registry1.
Proof.
  apply (register_all_first_wins Examples.registrations Examples.registry1 "countdown").
  reflexivity.
Defined.

Lemma register_all_checked (calls : list registration)
    (reg : gmap string (PyClass * PyClass)) :
  (forall name d c, reg !! name = Some (d, c) ->
     issubclass d ProceduralDataset = true /\ is_dataclass c = true) ->
  forall name d c, register_all calls reg !! name = Some (d, c) ->
    issubclass d ProceduralDataset = true /\ is_dataclass c = true.
Proof.
  revert reg. induction calls as [|call calls IH]; intros reg Hreg; [done |].
  unfold register_all in *. simpl. apply IH.
  intros name d c. unfold register_dataset.
  destruct (reg !! reg_name call) as [q|] eqn:Hn; [apply Hreg |].
  destruct (issubclass (reg_dataset_cls call) ProceduralDataset) eqn:Hs;
    [| apply Hreg].
  destruct (is_dataclass (reg_config_cls call)) eqn:Hd; [| apply Hreg]. simpl.
  destruct (decide (reg_name call = name)) as [<-|Hne].
  - rewrite lookup_insert_eq. by intros [= <- <-].
  - rewrite lookup_insert_ne by done. apply Hreg.
Qed.

(** X8.  Whatever calls filled the registry from empty, a dataset that
    [create_dataset] builds is of a class derived from
    [ProceduralDataset], registered under the name asked for together
    with a dataclass of which the configuration is an instance; the
    configuration, the seed and the size are passed on unchanged. *)
Theorem create_dataset_checked (calls : list registration) (name : string)
    (config : PyObject) (seed : option Z) (size : Z) (inst : Instantiation) :
  create_dataset name config seed size (register_all calls ∅) = Ok inst ->
  issubclass (inst_cls inst) ProceduralDataset = true
  /\ inst_config inst = config /\ inst_seed inst = seed /\ inst_size inst = size
  /\ exists c, register_all calls ∅ !! name = Some (inst_cls inst, c)
               /\ is_dataclass c = true /\ isinstance config c = true.
Proof.
  unfold create_dataset.
  destruct (register_all calls ∅ !! name) as [[d c]|] eqn:Hn; [| done].
  destruct (isinstance config c) eqn:Hi; [| done]. simpl.
  intros [= <-]. simpl.
  destruct (register_all_checked calls ∅) with (name := name) (d := d) (c := c)
    as [Hs Hd]; [by intros ? ? ?; rewrite lookup_empty | done |].
  repeat split; try done. by exists c.
Qed.

Lemma create_dataset_checked_witness :
  issubclass Examples.CountdownDataset_cls ProceduralDataset = true
  /\ Examples.countdown_config_obj = Examples.countdown_config_obj
  /\ Some 7 = Some 7 /\ 500 = 500
  /\ exists c, register_all Examples.registrations ∅ !! "countdown"
               = Some (Examples.CountdownDataset_cls, c)
               /\ is_dataclass c = true
               /\ isinstance Examples.countdown_config_obj c = true.
Proof.
  apply (create_dataset_checked Examples.registrations "countdown"
           Examples.countdown_config_obj (Some 7) 500
           (mkInstantiation Examples.CountdownDataset_cls
              Examples.countdown_config_obj (Some 7) 500)).
  by vm_compute.
Defined.

End RegistryFacts.

(** ** Strings and tokens *)

Section StringFacts.

Lemma chars_app (a b : string) :
  list_ascii_of_string (a +:+ b)
  = (list_ascii_of_string a ++ list_ascii_of_string b)%list.
Proof. induction a as [|c a IH]; simpl; [done | by rewrite IH]. Qed.


Lemma lower_app (a b : string) : lower (a +:+ b) = lower a +:+ lower b.
Proof. induction a as [|c a IH]; simpl; [done | by rewrite IH]. Qed.


Lemma is_alnum_word_char (c : ascii) : is_alnum c = true -> is_word_char c = true.
Proof. unfold is_word_char. by intros ->. Qed.

Lemma space_not_word_char : is_word_char " " = false.
Proof. reflexivity. Qed.

Lemma isalnum_chars (w : string) :
  isalnum w = true ->
  w <> EmptyString /\ Forall (fun c => is_alnum c = true) (list_ascii_of_string w).
Proof.
  unfold isalnum. destruct w as [|c w]; [done |]. intros H. split; [done |].
  apply Forall_forall. intros x Hx. rewrite forallb_forall in H.
  apply H. by apply list_elem_of_In.
Qed.

(** A run of word characters is read into the current word. *)
Lemma findall_words_run (w rest cur : list ascii) :
  Forall (fun c => is_word_char c = true) w ->
  findall_words (w ++ rest)%list cur = findall_words rest (rev w ++ cur)%list.
Proof.
  intros Hw. revert cur. induction Hw as [|c w Hc Hw IH]; intros cur; [done |].
  simpl. rewrite Hc, IH. by rewrite <- app_assoc.
Qed.

Lemma findall_words_join (ws : list string) :
  Forall (fun w => isalnum w = true) ws ->
  findall_words (list_ascii_of_string (join " " ws)) [] = ws.
Proof.
  induction 1 as [|w ws Hw Hws IH]; [done |].
  destruct (isalnum_chars w Hw) as [Hne Hc].
  assert (Hwc : Forall (fun c => is_word_char c = true) (list_ascii_of_string w)).
  { eapply Forall_impl; [exact Hc |]. apply is_alnum_word_char. }
  assert (Hflush : match rev (list_ascii_of_string w) with
                   | [] => []
                   | _ => [string_of_list_ascii (rev (rev (list_ascii_of_string w)))]
                   end = [w]).
  { rewrite rev_involutive, string_of_list_ascii_of_string.
    destruct w as [|c w]; [done |]. simpl.
    destruct (rev (list_ascii_of_string w) ++ [c])%list eqn:E; [| done].
    by apply app_eq_nil in E as [_ ?]. }
  destruct ws as [|w' ws].
  - simpl join. rewrite <- (app_nil_r (list_ascii_of_string w)).
    rewrite findall_words_run by done. rewrite app_nil_r. simpl. exact Hflush.
  - change (join " " (w :: w' :: ws)) with (w +:+ " " +:+ join " " (w' :: ws)).
    rewrite !chars_app. rewrite findall_words_run by done. rewrite app_nil_r.
    change (list_ascii_of_string " " ++ ?r)%list with (" "%char :: r).
    cbn [findall_words app list_ascii_of_string]. rewrite space_not_word_char.
    rewrite IH. by rewrite Hflush.
Qed.




End StringFacts.

(** ** Letter counting: the corpus and the samples *)

Section LetterCountingCorpus.
Import LetterCounting.

Lemma filter_all {A} (P : A -> Prop) `{forall x, Decision (P x)} (l : list A) :
  Forall P l -> filter P l = l.
Proof.
  induction 1 as [|x l Hx Hl IH]; [done |].
  rewrite filter_cons_True by done. by f_equal.
Qed.

(** X9.  The constructor keeps the configuration, resolves the seed (the
    configured one, else the fresh one) and tokenizes the corpus: every
    word it stores is non-empty and alphanumeric, and for a text made of
    alphanumeric words separated by single blanks the words stored are
    exactly those words, in order. *)
Theorem init_tokenizes :
  (forall text fresh cfg d,
     __init__ text fresh cfg = Ok d ->
     Forall (fun w => isalnum w = true) (words d)
     /\ config d = cfg /\ ds_seed d = default fresh (seed cfg)
     /\ _current_idx d = None)
  /\ (forall ws fresh cfg,
        validate cfg = Ok tt ->
        Forall (fun w => isalnum w = true) ws ->
        exists d, __init__ (join " " ws) fresh cfg = Ok d /\ words d = ws).
Proof.
  split.
  - intros text fresh cfg d. unfold __init__, and_then.
    destruct (validate cfg) as [[]|e]; [| done]. intros [= <-]. simpl.
    repeat split; try done.
    apply Forall_forall. intros w Hw. apply list_elem_of_filter in Hw as [Hw _].
    by apply Is_true_true.
  - intros ws fresh cfg Hv Hws. unfold __init__, and_then. rewrite Hv.
    eexists. split; [done |]. simpl. rewrite findall_words_join by done.
    apply filter_all. eapply Forall_impl; [exact Hws |].
    intros w Hw. by apply Is_true_true.
Qed.

Lemma init_tokenizes_witness :
  exists d, __init__ (join " " ["In"; "the"; "Year"; "2889"]) 0 Examples.lc_config = Ok d
            /\ words d = ["In"; "the"; "Year"; "2889"].
Proof.
  apply (proj2 init_tokenizes ["In"; "the"; "Year"; "2889"] 0 Examples.lc_config).
  - reflexivity.
  - repeat constructor.
Defined.

End LetterCountingCorpus.

Section LetterCountingSamples.
Import LetterCounting.
Context {R : PyRuntime} {L : PyRuntimeLaws R}.

Lemma py_slice_inside {A} (l : list A) (st n : Z) :
  0 <= st -> 0 <= n -> st + n <= Z.of_nat (length l) ->
  py_slice l st (st + n) = take (Z.to_nat n) (drop (Z.to_nat st) l).
Proof.
  intros Hst Hn Hle. unfold py_slice, slice_bound.
  destruct (Z.ltb_spec st 0), (Z.ltb_spec (st + n) 0); try lia.
  rewrite !Z.min_l by lia. do 2 f_equal. lia.
Qed.

Lemma randint_raise (a b : Z) (g : rng) (e : exn) :
  Rng.randint a b g = Raise e -> exists msg, e = ValueError msg.
Proof.
  unfold Rng.randint. destruct (0 <? b + 1 - a).
  - by destruct (_randbelow _ g).
  - intros [= <-]. eauto.
Qed.

(** What the draws of a returned sample were. *)
Lemma generate_inv (self : LetterCountingDataset) (g g' : rng) (s : Sample) :
  generate self g = Ok (s, g') ->
  exists n st,
    min_words (config self) <= n <= max_words (config self)
    /\ 0 <= st <= Z.of_nat (length (words self)) - n
    /\ span_length (metadata s) = n
    /\ span (metadata s) = py_slice (words self) st (st + n).
Proof.
  unfold generate. intros H.
  apply bind_Ok_inv in H as (n & g1 & Hn & H).
  apply bind_Ok_inv in H as (st & g2 & Hst & H).
  apply bind_Ok_inv in H as (c & g3 & Hc & H).
  unfold ret in H. injection H as <- <-. simpl.
  apply randint_range in Hn. apply randint_range in Hst.
  by exists n, st.
Qed.

Lemma getitem_Ok_inv (self self' : LetterCountingDataset) (idx : Z) (s : Sample) :
  __getitem__ self idx = (Ok s, self') ->
  self' = self /\ exists g', generate self (Random (ds_seed self + idx)) = Ok (s, g').
Proof.
  unfold __getitem__.
  destruct (generate self _) as [[s0 g']|e]; [| done].
  intros [= <- <-]. eauto.
Qed.

(** X10.  Every sample returned under a validated configuration leaves
    the object as it was and is about a run of consecutive words of the
    corpus: the span has [span_length] words, a number within
    [min_words] and [max_words], and the corpus is some words, then the
    span, then some words. *)
Theorem getitem_span (self self' : LetterCountingDataset) (idx : Z) (s : Sample) :
  validate (config self) = Ok tt ->
  __getitem__ self idx = (Ok s, self') ->
  self' = self
  /\ min_words (config self) <= span_length (metadata s) <= max_words (config self)
  /\ Z.of_nat (length (span (metadata s))) = span_length (metadata s)
  /\ exists pre post, words self = (pre ++ span (metadata s) ++ post)%list.
Proof.
  intros Hv H. apply letter_validate_Ok in Hv.
  apply getitem_Ok_inv in H as [-> [g' H]].
  apply generate_inv in H as (n & st & Hn & Hst & -> & ->).
  rewrite py_slice_inside by lia.
  repeat split; try lia.
  - rewrite length_take_le; [lia |]. rewrite length_drop. lia.
  - exists (take (Z.to_nat st) (words self)),
           (drop (Z.to_nat n) (drop (Z.to_nat st) (words self))).
    by rewrite take_drop, take_drop.
Qed.



(** X12.  With a corpus of fewer than [min_words] words no access
    returns a sample: [self[idx]] raises [ValueError] at every index,
    from the draw of the span length or of the start. *)
Theorem getitem_short_corpus (self : LetterCountingDataset) (idx : Z) :
  Z.of_nat (length (words self)) < min_words (config self) ->
  exists msg, __getitem__ self idx = (Raise (ValueError msg), self).
Proof.
  intros Hlt. unfold __getitem__, generate.
  destruct (Rng.randint (min_words (config self)) (max_words (config self))
              (Random (ds_seed self + idx))) as [[n g1]|e] eqn:E1.
  - pose proof (randint_range _ _ _ _ _ E1) as Hn.
    destruct (randint_empty 0 (Z.of_nat (length (words self)) - n) g1) as [msg E2];
      [lia |].
    exists msg. rewrite (bind_Ok _ _ _ _ _ E1). by rewrite (bind_Raise _ _ _ _ E2).
  - destruct (randint_raise _ _ _ _ E1) as [msg ->].
    exists msg. by rewrite (bind_Raise _ _ _ _ E1).
Qed.

End LetterCountingSamples.

Section LetterCountingSampleExamples.
Import LetterCounting Examples.

#[local] Existing Instance lc_runtime.

Lemma getitem_span_witness :
  exists s,
    __getitem__ lc_ds 1 = (Ok s, lc_ds)
    /\ lc_ds = lc_ds
    /\ min_words (config lc_ds) <= span_length (metadata s) <= max_words (config lc_ds)
    /\ Z.of_nat (length (span (metadata s))) = span_length (metadata s)
    /\ exists pre post, words lc_ds = (pre ++ span (metadata s) ++ post)%list.
Proof.
  eexists. split; [by vm_compute |].
  apply (@getitem_span lc_runtime (TapeRuntime_laws lc_tape) lc_ds lc_ds 1).
  - reflexivity.
  - by vm_compute.
Defined.


Lemma getitem_short_corpus_witness :
  exists msg, __getitem__ lc_short_ds 0 = (Raise (ValueError msg), lc_short_ds).
Proof.
  apply (@getitem_short_corpus lc_runtime (TapeRuntime_laws lc_tape) lc_short_ds 0).
  simpl. lia.
Defined.

End LetterCountingSampleExamples.

(** ** Countdown: what a returned sample is made of *)

Section CountdownInversion.
Import Countdown CountdownOps Shapes.
Context {R : PyRuntime}.

Lemma generate_expression_Ok_inv (depth : nat) (self : CountdownDataset)
    (g g' : rng) (x : string * list Z * Z) :
  _generate_expression depth self g = Ok (x, g') ->
  exists g0 st, build self g0 = Ok (st, g') /\ finish self st = Some x.
Proof.
  revert g. induction depth as [|depth IH]; intros g;
    rewrite generate_expression_unfold;
    destruct (attempt self g) as [[[y|] g1]|e] eqn:Ea; try done.
  - intros [= <- <-]. unfold attempt in Ea.
    apply bind_Ok_inv in Ea as (st & g2 & Hb & Hr). unfold ret in Hr.
    injection Hr as Hf <-. eauto.
  - intros [= <- <-]. unfold attempt in Ea.
    apply bind_Ok_inv in Ea as (st & g2 & Hb & Hr). unfold ret in Hr.
    injection Hr as Hf <-. eauto.
  - apply IH.
Qed.

(** A returned sample comes from one accepted pass; its numbers are
    those of the pass, shuffled or not. *)
Lemma countdown_getitem_Ok_inv (depth : nat) (self self' : CountdownDataset)
    (idx : Z) (s : Sample) :
  __getitem__ depth self idx = (Ok s, self') ->
  self' = self
  /\ exists g0 g1 st nums,
       build self g0 = Ok (st, g1)
       /\ finish self st = Some (answer s, nums, md_target (metadata s))
       /\ md_expression (metadata s) = answer s
       /\ md_numbers (metadata s) ≡ₚ nums
       /\ (shuffle (config self) = false -> md_numbers (metadata s) = nums).
Proof.
  unfold __getitem__.
  destruct (generate depth self _) as [[s0 g']|e] eqn:E; [| done].
  intros [= <- <-]. split; [done |].
  unfold generate in E.
  apply bind_Ok_inv in E as ([[e nums] t] & g1 & He & E).
  apply bind_Ok_inv in E as (nums' & g2 & Hs & E).
  apply bind_Ok_inv in E as (tpl & g3 & Ht & E).
  unfold ret in E. injection E as <- <-. simpl.
  apply generate_expression_Ok_inv in He as (g0 & st & Hb & Hf).
  exists g0, g1, st, nums. repeat split; try done.
  - destruct (shuffle (config self)).
    + by apply shuffle_Permutation in Hs.
    + unfold ret in Hs. by injection Hs as <- <-.
  - intros Hsh. rewrite Hsh in Hs. unfold ret in Hs. by injection Hs as <- <-.
Qed.

(** X13.  For every configuration, validated or not, a sample that
    [dataset[idx]] returns has its target within [min_target] and
    [max_target], gives the same text as answer and as
    [metadata.expression], and leaves the dataset object as it was. *)
Theorem getitem_target_within_bounds (depth : nat) (self self' : CountdownDataset)
    (idx : Z) (s : Sample) :
  __getitem__ depth self idx = (Ok s, self') ->
  self' = self
  /\ min_target (config self) <= md_target (metadata s) <= max_target (config self)
  /\ md_expression (metadata s) = answer s.
Proof.
  intros H. apply countdown_getitem_Ok_inv in H
    as [-> (g0 & g1 & st & nums & Hb & Hf & He & _)].
  apply finish_accept in Hf as (Ht & _). repeat split; try done; lia.
Qed.

(** X17.  A sample returned within some allowance of recursion is
    returned unchanged within any larger one. *)
Theorem getitem_deeper (d d' : nat) (self self' : CountdownDataset) (idx : Z)
    (s : Sample) :
  __getitem__ d self idx = (Ok s, self') -> (d <= d')%nat ->
  __getitem__ d' self idx = (Ok s, self).
Proof.
  unfold __getitem__.
  destruct (generate d self _) as [[s0 g']|e] eqn:E; [| done].
  intros [= <- <-] Hle. unfold generate in E |- *.
  apply bind_Ok_inv in E as (x & g1 & He & E).
  apply (generate_expression_deeper d d' self _ _ _ Hle) in He.
  by rewrite (bind_Ok _ _ _ _ _ He), E.
Qed.

End CountdownInversion.

Section CountdownValues.
Import Countdown CountdownOps Shapes.





End CountdownValues.

Section CountdownBuildInversion.
Import Countdown CountdownOps Shapes.
Context {R : PyRuntime}.




Context {L : PyRuntimeLaws R}.



End CountdownBuildInversion.

Section CountdownTargets.
Import Countdown CountdownOps Shapes.
Context {R : PyRuntime}.




End CountdownTargets.

Section CountdownSampleExamples.
Import Countdown CountdownOps Shapes Examples.

#[local] Existing Instance countdown_runtime.

Lemma getitem_target_within_bounds_witness :
  exists s,
    __getitem__ 0 countdown_ds 0 = (Ok s, countdown_ds)
    /\ countdown_ds = countdown_ds
    /\ min_target (config countdown_ds) <= md_target (metadata s)
       <= max_target (config countdown_ds)
    /\ md_expression (metadata s) = answer s.
Proof.
  eexists. split; [by vm_compute |].
  apply (@getitem_target_within_bounds countdown_runtime 0 countdown_ds countdown_ds 0).
  by vm_compute.
Defined.

Lemma getitem_deeper_witness :
  exists s,
    __getitem__ 0 countdown_ds 0 = (Ok s, countdown_ds)
    /\ __getitem__ 5 countdown_ds 0 = (Ok s, countdown_ds).
Proof.
  eexists. split; [by vm_compute |].
  apply (@getitem_deeper countdown_runtime 0 5 countdown_ds countdown_ds 0).
  - by vm_compute.
  - lia.
Defined.




End CountdownSampleExamples.

Section CountdownFailures.
Import Countdown CountdownOps.
Context {R : PyRuntime} {L : PyRuntimeLaws R}.



End CountdownFailures.

Section CountdownFailureExamples.
Import Countdown Examples.

#[local] Existing Instance countdown_runtime.


End CountdownFailureExamples.
